(** * OpenAlex dataset harvester for the Francis Crick Institute

    A shallow embedding of [openalex_crick_datasets.py] and the properties
    of its fetch / persist / summarise pipeline.

    Modelling conventions.
    - A Python [str] is the list of its code points ([pystr]); the bytes of
      a file are a list of numbers below 256.
    - The values the program handles are the ones [response.json()] builds:
      [None], booleans, integers, strings, lists and string-keyed dicts
      ([json]).  A dict is an association list in insertion order, which is
      the order [json.dump] and [dict.keys()] follow.  Python floats are not
      part of the model.
    - Effects are explicit: a [world] holds what was printed, the HTTP
      requests issued, the pauses taken and the files written; an [env]
      holds what the outside answers (the remote API, the file system, the
      installed [requests] library).
    - [while True] is run with fuel; [None] means the fuel ran out. *)

From Stdlib Require Import ZArith NArith List String Ascii Bool Lia.
Import ListNotations.

Set Implicit Arguments.

(** * Python values and the library calls *)

(** ** Python strings *)

Definition pystr := list N.

Definition ch (a : ascii) : N := N_of_ascii a.

Definition str (s : string) : pystr := map ch (list_ascii_of_string s).

Fixpoint pystr_eqb (a b : pystr) : bool :=
  match a, b with
  | [], [] => true
  | x :: a', y :: b' => (x =? y)%N && pystr_eqb a' b'
  | _, _ => false
  end.

(** ** JSON-compatible Python values *)

Unset Elimination Schemes.

Inductive json : Type :=
| JNull
| JBool (b : bool)
| JInt (n : Z)
| JStr (s : pystr)
| JList (l : list json)
| JDict (d : list (pystr * json)).

Set Elimination Schemes.

(** [bool(v)]: the empty containers, zero, [False] and [None] are falsy. *)
Definition truthy (v : json) : bool :=
  match v with
  | JNull => false
  | JBool b => b
  | JInt n => negb (n =? 0)%Z
  | JStr s => match s with [] => false | _ => true end
  | JList l => match l with [] => false | _ => true end
  | JDict d => match d with [] => false | _ => true end
  end.

(** [d.get(key, default)] on a dict. *)
Fixpoint dict_get (d : list (pystr * json)) (key : pystr) (default : json) : json :=
  match d with
  | [] => default
  | (k, v) :: d' => if pystr_eqb k key then v else dict_get d' key default
  end.

Definition dict_has (d : list (pystr * json)) (key : pystr) : bool :=
  existsb (fun kv => pystr_eqb (fst kv) key) d.

(** [d[key] = v]: an existing key keeps its place, a new one goes last. *)
Fixpoint dict_set (d : list (pystr * json)) (key : pystr) (v : json) : list (pystr * json) :=
  match d with
  | [] => [(key, v)]
  | (k, w) :: d' => if pystr_eqb k key then (k, v) :: d' else (k, w) :: dict_set d' key v
  end.

(** [len(v)], for the values that have a length. *)
Definition py_len (v : json) : option Z :=
  match v with
  | JStr s => Some (Z.of_nat (List.length s))
  | JList l => Some (Z.of_nat (List.length l))
  | JDict d => Some (Z.of_nat (List.length d))
  | _ => None
  end.

(** What iterating over [v] yields: the items of a list, the one-character
    strings of a string, the keys of a dict. *)
Definition py_iter (v : json) : option (list json) :=
  match v with
  | JList l => Some l
  | JStr s => Some (map (fun c => JStr [c]) s)
  | JDict d => Some (map (fun kv => JStr (fst kv)) d)
  | _ => None
  end.

(** The slice [l[:m]], with Python's reading of a negative bound. *)
Definition slice_to (A : Type) (l : list A) (m : Z) : list A :=
  if (m <? 0)%Z
  then firstn (Z.to_nat (Z.of_nat (List.length l) + m)) l
  else firstn (Z.to_nat m) l.

(** ** [json.dumps(v, indent=..., ensure_ascii=...)] *)

Definition hex_digit (n : N) : N := (if n <? 10 then 48 + n else 87 + n)%N.

(** ['\\u{0:04x}'.format(n)] *)
Definition escape_u (n : N) : pystr :=
  [92; 117; hex_digit (n / 4096 mod 16); hex_digit (n / 256 mod 16);
   hex_digit (n / 16 mod 16); hex_digit (n mod 16)]%N.

Definition escape_char (ensure_ascii : bool) (c : N) : pystr :=
  (if c =? 34 then [92; 34]
   else if c =? 92 then [92; 92]
   else if c =? 10 then [92; 110]
   else if c =? 13 then [92; 114]
   else if c =? 9 then [92; 116]
   else if c =? 8 then [92; 98]
   else if c =? 12 then [92; 102]
   else if c <? 32 then escape_u c
   else if ensure_ascii && (126 <? c)
        then if c <? 65536 then escape_u c
             else escape_u (55296 + ((c - 65536) / 1024) mod 1024)
                  ++ escape_u (56320 + (c - 65536) mod 1024)
        else [c])%N.

Definition encode_basestring (ensure_ascii : bool) (s : pystr) : pystr :=
  34%N :: flat_map (escape_char ensure_ascii) s ++ [34%N].

(** The decimal digits of a natural number, most significant first. *)
Fixpoint digits_fuel (fuel : nat) (n : N) (acc : pystr) : pystr :=
  match fuel with
  | O => acc
  | S fuel' =>
      if (n <? 10)%N then (48 + n)%N :: acc
      else digits_fuel fuel' (n / 10)%N ((48 + n mod 10)%N :: acc)
  end.

Definition digits (n : N) : pystr := digits_fuel (S (N.to_nat (N.log2 n))) n [].

(** [int.__repr__] *)
Definition repr_int (z : Z) : pystr :=
  if (z <? 0)%Z then 45%N :: digits (Z.to_N (- z)) else digits (Z.to_N z).

Definition newline_indent (indent level : nat) : pystr :=
  10%N :: repeat 32%N (indent * level).

Fixpoint join (sep : pystr) (chunks : list pystr) : pystr :=
  match chunks with
  | [] => []
  | [c] => c
  | c :: rest => c ++ sep ++ join sep rest
  end.

Fixpoint dumps_at (ensure_ascii : bool) (indent level : nat) (v : json) : pystr :=
  match v with
  | JNull => str "null"
  | JBool true => str "true"
  | JBool false => str "false"
  | JInt n => repr_int n
  | JStr s => encode_basestring ensure_ascii s
  | JList [] => str "[]"
  | JList l =>
      str "[" ++ newline_indent indent (S level)
      ++ join (str "," ++ newline_indent indent (S level))
              (map (dumps_at ensure_ascii indent (S level)) l)
      ++ newline_indent indent level ++ str "]"
  | JDict [] => str "{}"
  | JDict d =>
      str "{" ++ newline_indent indent (S level)
      ++ join (str "," ++ newline_indent indent (S level))
              (map (fun kv => let '(k, w) := kv in
                              encode_basestring ensure_ascii k ++ str ": "
                              ++ dumps_at ensure_ascii indent (S level) w) d)
      ++ newline_indent indent level ++ str "}"
  end.

Definition json_dumps (v : json) (indent : nat) (ensure_ascii : bool) : pystr :=
  dumps_at ensure_ascii indent 0 v.

(** ** The [utf-8] codec of a text file, error handler [strict] *)

Definition is_surrogate (c : N) : bool := ((55296 <=? c) && (c <=? 57343))%N.

Definition utf8_encode_char (c : N) : option (list N) :=
  (if c <? 128 then Some [c]
   else if c <? 2048 then Some [192 + c / 64; 128 + c mod 64]
   else if c <? 65536 then
     if is_surrogate c then None
     else Some [224 + c / 4096; 128 + (c / 64) mod 64; 128 + c mod 64]
   else if c <? 1114112 then
     Some [240 + c / 262144; 128 + (c / 4096) mod 64; 128 + (c / 64) mod 64; 128 + c mod 64]
   else None)%N.

Fixpoint utf8_encode (s : pystr) : option (list N) :=
  match s with
  | [] => Some []
  | c :: s' =>
      match utf8_encode_char c, utf8_encode s' with
      | Some bs, Some rest => Some (bs ++ rest)
      | _, _ => None
      end
  end.

(** ** Exceptions, the world and the computation monad *)

(** The exceptions the program can meet: [ConnectionError] stands for
    what [requests.get] raises when no response comes (connection refused,
    timeout, ...), [HTTPError] is raised by [raise_for_status],
    [JSONDecodeError] by [response.json()], [AttributeError] by a method
    the value does not have, [TypeError] by iterating over what cannot be
    iterated, [OSError] by [open] and [UnicodeEncodeError] by the codec of
    the output file. *)
Inductive exn : Type :=
| ConnectionError (msg : string)
| HTTPError (status : Z)
| JSONDecodeError
| AttributeError
| TypeError
| OSError (filename : string)
| UnicodeEncodeError.

(** The query parameters of one request. *)
Record params : Type := mkParams
  { p_filter : string; p_per_page : Z; p_mailto : string; p_page : Z }.

(** What the remote end does with a request: no response at all, or a
    response with a status code and a body, which parses as JSON or not. *)
Inductive response : Type :=
| NoResponse (msg : string)
| Response (status : Z) (body : option json).

(** A printed line is kept as the pieces of its f-string. *)
Inductive frag : Type :=
| Lit (s : string)
| NL
| Num (n : Z)
| Val (v : json)
| Err (e : exn)
| Txt (t : pystr).

Definition line := list frag.

(** A file holds the bytes of a completed write, or what an interrupted
    write left of it. *)
Inductive file_state : Type :=
| Written (bytes : list N)
| Partial.

Record world : Type := mkWorld
  { stdout : list line;
    requests : list params;
    sleeps : nat;
    files : list (string * file_state) }.

Definition empty_world : world :=
  {| stdout := []; requests := []; sleeps := 0; files := [] |}.

(** What the outside answers.
    - [http_get]: the remote API.
    - [can_write]: whether the file system lets a file be opened for
      writing and written.
    - [json_error_is_request_exception]: whether the exception that
      [response.json()] raises on a body that is not JSON derives from
      [requests.exceptions.RequestException].  It does since requests 2.27
      ([requests.exceptions.JSONDecodeError], through [InvalidJSONError]);
      before, [response.json()] raised the [ValueError] of the [json]
      module. *)
Record env : Type := mkEnv
  { http_get : params -> response;
    can_write : string -> bool;
    json_error_is_request_exception : bool }.

(** A computation returns or raises, and leaves a world behind. *)
Inductive result (A : Type) : Type :=
| Ok (a : A)
| Raise (e : exn).

Arguments Raise {A} e.

Definition M (A : Type) : Type := world -> result A * world.

Definition ret (A : Type) (a : A) : M A := fun w => (Ok a, w).

Definition raise (A : Type) (e : exn) : M A := fun w => (Raise e, w).

Arguments raise {A} e.

Definition bind (A B : Type) (c : M A) (k : A -> M B) : M B :=
  fun w =>
    match c w with
    | (Ok a, w') => k a w'
    | (Raise e, w') => (Raise e, w')
    end.

Declare Scope py_scope.
Delimit Scope py_scope with py.

Notation "x <- c ;; k" := (bind c (fun x => k))
  (at level 61, c at next level, right associativity) : py_scope.
Notation "c ;; k" := (bind c (fun _ => k))
  (at level 61, right associativity) : py_scope.

Open Scope py_scope.

Definition print (l : line) : M unit :=
  fun w => (Ok tt, {| stdout := stdout w ++ [l]; requests := requests w;
                      sleeps := sleeps w; files := files w |}).

Definition sleep : M unit :=
  fun w => (Ok tt, {| stdout := stdout w; requests := requests w;
                      sleeps := S (sleeps w); files := files w |}).

Definition log_request (p : params) : M unit :=
  fun w => (Ok tt, {| stdout := stdout w; requests := requests w ++ [p];
                      sleeps := sleeps w; files := files w |}).

Definition set_file (filename : string) (st : file_state) : M unit :=
  fun w => (Ok tt, {| stdout := stdout w; requests := requests w;
                      sleeps := sleeps w;
                      files := (filename, st) :: files w |}).

(** The file a name denotes is its latest entry. *)
Fixpoint read_file (fs : list (string * file_state)) (filename : string) : option file_state :=
  match fs with
  | [] => None
  | (n, st) :: fs' => if String.eqb n filename then Some st else read_file fs' filename
  end.

(** * The program *)

(** ** Fetcher: [get_crick_datasets] *)

Section Program.

Variable E : env.

(** [requests.get(base_url, params=params)]; [response.raise_for_status()];
    [response.json()].  A status from 400 to 599 raises [HTTPError]. *)
Definition get_json (p : params) : M json :=
  log_request p ;;
  match http_get E p with
  | NoResponse msg => raise (ConnectionError msg)
  | Response status body =>
      if ((400 <=? status) && (status <? 600))%Z then raise (HTTPError status)
      else match body with
           | None => raise JSONDecodeError
           | Some data => ret data
           end
  end.

(** [except requests.exceptions.RequestException]: which exceptions of the
    [try] block the handler catches. *)
Definition is_request_exception (e : exn) : bool :=
  match e with
  | ConnectionError _ => true
  | HTTPError _ => true
  | JSONDecodeError => json_error_is_request_exception E
  | _ => false
  end.

Definition crick_ror : string := "https://ror.org/029chgv08".

Definition make_params (per_page page : Z) : params :=
  {| p_filter := "institutions.ror:" ++ crick_ror ++ ",type:dataset";
     p_per_page := per_page;
     p_mailto := "beth.montague-hellen@crick.a.uk";
     p_page := page |}.

(** [x.get(key, default)] on any value: only a dict has the method. *)
Definition py_get (x : json) (key : string) (default : json) : M json :=
  match x with
  | JDict d => ret (dict_get d (str key) default)
  | _ => raise AttributeError
  end.

Inductive flow : Type := Continue | Break.

(** [max_results and len(all_datasets) >= max_results] *)
Definition max_reached (max_results : option Z) (all_datasets : list json) : bool :=
  match max_results with
  | None => false
  | Some m => negb (m =? 0)%Z && (m <=? Z.of_nat (List.length all_datasets))%Z
  end.

(** The [try] block from [if not results:] on. *)
Definition process_page (per_page : Z) (max_results : option Z) (page : Z)
    (all_datasets : list json) (results meta : json) : M (flow * list json) :=
  if negb (truthy results) then ret (Break, all_datasets)
  else
    match py_iter results, py_len results with
    | Some items, Some n =>
        let all_datasets := all_datasets ++ items in
        print [Lit "Page "; Num page; Lit ": Retrieved "; Num n; Lit " datasets"] ;;
        print [Lit "Total so far: "; Num (Z.of_nat (List.length all_datasets))] ;;
        count <- py_get meta "count" (JStr (str "unknown")) ;;
        print [Lit "Total available: "; Val count; NL] ;;
        if max_reached max_results all_datasets
        then
          match max_results with
          | Some m => ret (Break, slice_to all_datasets m)
          | None => ret (Break, all_datasets)
          end
        else if (n <? per_page)%Z then ret (Break, all_datasets)
        else sleep ;; ret (Continue, all_datasets)
    | _, _ => raise TypeError
    end.

(** The [try] block of one iteration. *)
Definition try_page (per_page : Z) (max_results : option Z) (page : Z)
    (all_datasets : list json) : M (flow * list json) :=
  data <- get_json (make_params per_page page) ;;
  results <- py_get data "results" (JList []) ;;
  meta <- py_get data "meta" (JDict []) ;;
  process_page per_page max_results page all_datasets results meta.

(** One iteration with its handler: a caught exception prints and breaks,
    keeping what was accumulated before the iteration. *)
Definition fetch_page (per_page : Z) (max_results : option Z) (page : Z)
    (all_datasets : list json) : M (flow * list json) :=
  fun w =>
    match try_page per_page max_results page all_datasets w with
    | (Raise e, w') =>
        if is_request_exception e
        then (print [Lit "Error fetching data: "; Err e] ;; ret (Break, all_datasets)) w'
        else (Raise e, w')
    | r => r
    end.

(** [while True]: [None] when the fuel runs out before a [break]. *)
Fixpoint fetch_loop (fuel : nat) (per_page : Z) (max_results : option Z)
    (page : Z) (all_datasets : list json) (w : world)
    : option (result (list json) * world) :=
  match fuel with
  | O => None
  | S fuel' =>
      match fetch_page per_page max_results page all_datasets w with
      | (Ok (Break, all_datasets'), w') => Some (Ok all_datasets', w')
      | (Ok (Continue, all_datasets'), w') =>
          fetch_loop fuel' per_page max_results (page + 1) all_datasets' w'
      | (Raise e, w') => Some (Raise e, w')
      end
  end.

(** The two lines printed before the loop. *)
Definition announce : M unit :=
  print [Lit "Querying OpenAlex for datasets from Francis Crick Institute..."] ;;
  print [Lit "ROR ID: "; Lit crick_ror; NL].

Definition get_crick_datasets (fuel : nat) (per_page : Z) (max_results : option Z)
    (w : world) : option (result (list json) * world) :=
  fetch_loop fuel per_page max_results 1 [] (snd (announce w)).

(** ** Persister: [save_datasets] *)

(** [with open(filename, 'w', encoding='utf-8') as f:
       json.dump(datasets, f, indent=2, ensure_ascii=False)]
    The text reaches the file through the [utf-8] codec; a character the
    codec refuses leaves an incomplete file behind. *)
Definition save_datasets (datasets : list json) (filename : string) : M unit :=
  if can_write E filename then
    match utf8_encode (json_dumps (JList datasets) 2 false) with
    | Some bytes =>
        set_file filename (Written bytes) ;;
        print [NL; Lit "Saved "; Num (Z.of_nat (List.length datasets));
               Lit " datasets to "; Lit filename]
    | None => set_file filename Partial ;; raise UnicodeEncodeError
    end
  else raise (OSError filename).

(** ** Summarizer: [print_summary] *)

(** [s * n] *)
Fixpoint string_repeat (s : string) (n : nat) : string :=
  match n with
  | O => EmptyString
  | S n' => s ++ string_repeat s n'
  end.

(** The body of the [for] loop of [print_summary]. *)
Definition preview (i : Z) (dataset : json) : M unit :=
  title <- py_get dataset "title" (JStr (str "No title")) ;;
  pub_year <- py_get dataset "publication_year" (JStr (str "Unknown year")) ;;
  doi <- py_get dataset "doi" (JStr (str "No DOI")) ;;
  oa <- py_get dataset "open_access" (JDict []) ;;
  open_access <- py_get oa "is_oa" (JBool false) ;;
  print [Num i; Lit ". "; Val title] ;;
  print [Lit "   Year: "; Val pub_year] ;;
  print [Lit "   DOI: "; Val doi] ;;
  print [Lit "   Open Access: "; Val open_access] ;;
  print [].

(** [for i, dataset in enumerate(l, i): ...] *)
Fixpoint for_enumerate (body : Z -> json -> M unit) (l : list json) (i : Z) : M unit :=
  match l with
  | [] => ret tt
  | x :: l' => body i x ;; for_enumerate body l' (i + 1)
  end.

Definition print_summary (datasets : list json) : M unit :=
  print [NL; Lit (string_repeat "=" 80)] ;;
  print [Lit "SUMMARY OF FRANCIS CRICK INSTITUTE DATASETS"] ;;
  print [Lit (string_repeat "=" 80)] ;;
  print [NL; Lit "Total datasets found: "; Num (Z.of_nat (List.length datasets)); NL] ;;
  match datasets with
  | [] => ret tt
  | _ =>
      print [Lit "Sample datasets (first 5):"; NL] ;;
      for_enumerate preview (slice_to datasets 5) 1
  end.

(** ** Entry point: [main] *)

(** [list(x.keys())] *)
Definition py_keys (x : json) : M json :=
  match x with
  | JDict d => ret (JList (map (fun kv => JStr (fst kv)) d))
  | _ => raise AttributeError
  end.

(** What [main] does with the fetched records. *)
Definition report (datasets : list json) : M unit :=
  match datasets with
  | [] => print [NL; Lit "No datasets found or error occurred."]
  | first :: _ =>
      save_datasets datasets "crick_datasets.json" ;;
      print_summary datasets ;;
      print [NL; Lit "Dataset fields available:"] ;;
      keys <- py_keys first ;;
      print [Txt (json_dumps keys 2 true)]
  end.

Definition main (fuel : nat) (w : world) : option (result unit * world) :=
  match get_crick_datasets fuel 200 None w with
  | None => None
  | Some (Raise e, w') => Some (Raise e, w')
  | Some (Ok datasets, w') => Some (report datasets w')
  end.

End Program.

(** The status the interpreter exits with: 0 when [main] returns, 1 when
    an exception reaches the top level. *)
Definition exit_status (A : Type) (r : result A) : Z :=
  match r with
  | Ok _ => 0
  | Raise _ => 1
  end.

(** * The vocabulary of the properties and the reading side *)

Unset Implicit Arguments.

(** ** The API of the testable properties

    It holds the matching records [db] and serves them in pages of the
    requested size, in order.  [fail_at] names a page whose request fails
    and what the client gets instead: no response (connection refused) or
    a response with an error status. *)

Definition page_of (db : list json) (per_page page : Z) : list json :=
  firstn (Z.to_nat per_page) (skipn (Z.to_nat ((page - 1) * per_page)) db).

Definition api_meta (db : list json) (q : params) : list (pystr * json) :=
  [(str "count", JInt (Z.of_nat (List.length db)));
   (str "page", JInt (p_page q));
   (str "per_page", JInt (p_per_page q))].

Definition api_body (db : list json) (q : params) : json :=
  JDict [(str "meta", JDict (api_meta db q));
         (str "results", JList (page_of db (p_per_page q) (p_page q)))].

Definition mock_api (db : list json) (fail_at : option (Z * response)) (q : params) : response :=
  match fail_at with
  | Some (n, failure) =>
      if (p_page q =? n)%Z then failure else Response 200 (Some (api_body db q))
  | None => Response 200 (Some (api_body db q))
  end.

(** A request fails when it gets no response or an error status. *)
Definition is_failure (r : response) : bool :=
  match r with
  | NoResponse _ => true
  | Response status _ => ((400 <=? status) && (status <? 600))%Z
  end.

Definition mock_env (db : list json) (fail_at : option (Z * response)) (writable : bool) : env :=
  {| http_get := mock_api db fail_at;
     can_write := fun _ => writable;
     json_error_is_request_exception := true |}.

(** [min(k, max_results or infinity)] as a number of records. *)
Definition limit (max_results : option Z) (k : nat) : nat :=
  match max_results with
  | None => k
  | Some m => if (m =? 0)%Z then k else Nat.min k (Z.to_nat m)
  end.

(** The page numbers [from], [from + 1], ..., [n] of them. *)
Definition pages (from : Z) (n : nat) : list Z :=
  map (fun i => (from + Z.of_nat i)%Z) (seq 0 n).

(** The state of the loop after [n] iterations that each went on to the
    next page: the page to request, the records accumulated, the world. *)
Fixpoint after_pages (E : env) (n : nat) (p : Z) (max : option Z) (page : Z)
    (all : list json) (w : world) : option (Z * list json * world) :=
  match n with
  | O => Some (page, all, w)
  | S n' =>
      match fetch_page E p max page all w with
      | (Ok (Continue, all'), w') => after_pages E n' p max (page + 1) all' w'
      | _ => None
      end
  end.

(** The items of the [results] array the API answers page [page] with. *)
Definition page_items (E : env) (p : Z) (page : Z) : list json :=
  match http_get E (make_params p page) with
  | Response _ (Some (JDict d)) =>
      match py_iter (dict_get d (str "results") (JList [])) with
      | Some items => items
      | None => []
      end
  | _ => []
  end.

(** A record shaped like the API's, and a collection of [k] of them, for
    concrete runs. *)
Definition sample_record (i : Z) : json :=
  JDict [(str "id", JInt i);
         (str "title", JStr (str "Dataset"));
         (str "publication_year", JInt 2024);
         (str "doi", JNull);
         (str "open_access", JDict [(str "is_oa", JBool true)])].

Definition sample_db (k : nat) : list json :=
  map (fun i => sample_record (Z.of_nat i)) (seq 0 k).

(** What a run leaves of the world it started in: the requests it added,
    the pauses it took, and the files untouched. *)
Definition extends (w w' : world) (reqs : list params) (naps : nat) : Prop :=
  requests w' = requests w ++ reqs /\
  sleeps w' = (sleeps w + naps)%nat /\
  files w' = files w.

(** The outcome of [process_page] on a page whose [results] is the list [rs]. *)
Definition page_outcome (p : Z) (max : option Z) (all rs : list json) : flow * list json :=
  match rs with
  | [] => (Break, all)
  | _ =>
      if max_reached max (all ++ rs)
      then (Break, match max with
                   | Some m => slice_to (all ++ rs) m
                   | None => all ++ rs
                   end)
      else if (Z.of_nat (List.length rs) <? p)%Z then (Break, all ++ rs)
      else (Continue, all ++ rs)
  end.

Definition naps_of (f : flow) : nat :=
  match f with
  | Continue => 1
  | Break => 0
  end.

(** The API answers page [page] with records. *)
Definition served (fail_at : option (Z * response)) (page : Z) : Prop :=
  match fail_at with
  | Some (n, _) => page <> n
  | None => True
  end.

(** Where the loop stops on an API that holds [k] records: on the first
    page that reaches a limit the records can fill, else on the first page
    that is not full. *)
Definition stops_at (k : nat) (p : Z) (max : option Z) (j : Z) : Prop :=
  match max with
  | Some m =>
      if (m =? 0)%Z || (Z.of_nat k <? m)%Z
      then ((j - 1) * p <= Z.of_nat k < j * p)%Z
      else ((j - 1) * p < m <= j * p)%Z
  | None => ((j - 1) * p <= Z.of_nat k < j * p)%Z
  end.

(** ** Requests that fail *)

(** The exception a failed request raises. *)
Definition request_error (r : response) : exn :=
  match r with
  | NoResponse msg => ConnectionError msg
  | Response status _ => HTTPError status
  end.

(** The world after the request and the handler's line. *)
Definition after_error (page_params : params) (e : exn) (w : world) : world :=
  {| stdout := stdout w ++ [[Lit "Error fetching data: "; Err e]];
     requests := requests w ++ [page_params];
     sleeps := sleeps w;
     files := files w |}.

(** The scenario of the specification: 450 records, the connection refused
    on page 2. *)
Definition scenario_env : env :=
  mock_env (sample_db 450) (Some (2%Z, NoResponse "Connection refused")) true.

Definition scenario_world : world :=
  snd (fetch_page scenario_env 200 None 1 [] (snd (announce empty_world))).

(** The world after the request alone. *)
Definition after_request (page_params : params) (w : world) : world :=
  snd (log_request page_params w).

(** An API whose bodies never parse, under either [requests]. *)
Definition bad_json_env (lib : bool) : env :=
  {| http_get := fun _ => Response 200 None;
     can_write := fun _ => true;
     json_error_is_request_exception := lib |}.

(** ** The summary, by the specification *)

Definition is_dict (v : json) : bool :=
  match v with
  | JDict _ => true
  | _ => false
  end.

(** A record [preview] can read: a mapping whose [open_access], when
    present, is a mapping. *)
Definition previewable (v : json) : bool :=
  match v with
  | JDict d => is_dict (dict_get d (str "open_access") (JDict []))
  | _ => false
  end.

(** The specification's reading of a field: its value when the key is
    present, the fallback when it is missing. *)
Definition field_or (d : list (pystr * json)) (key : string) (fallback : json) : json :=
  if dict_has d (str key) then dict_get d (str key) JNull else fallback.

Definition open_access_flag (d : list (pystr * json)) : json :=
  match field_or d "open_access" (JDict []) with
  | JDict oa => field_or oa "is_oa" (JBool false)
  | _ => JBool false
  end.

(** The five lines of one record's preview, by the specification. *)
Definition preview_lines (i : Z) (v : json) : list line :=
  match v with
  | JDict d =>
      [[Num i; Lit ". "; Val (field_or d "title" (JStr (str "No title")))];
       [Lit "   Year: "; Val (field_or d "publication_year" (JStr (str "Unknown year")))];
       [Lit "   DOI: "; Val (field_or d "doi" (JStr (str "No DOI")))];
       [Lit "   Open Access: "; Val (open_access_flag d)];
       []]
  | _ => []
  end.

Fixpoint previews_from (i : Z) (l : list json) : list line :=
  match l with
  | [] => []
  | x :: l' => preview_lines i x ++ previews_from (i + 1) l'
  end.

Definition summary_head (total : nat) : list line :=
  [[NL; Lit (string_repeat "=" 80)];
   [Lit "SUMMARY OF FRANCIS CRICK INSTITUTE DATASETS"];
   [Lit (string_repeat "=" 80)];
   [NL; Lit "Total datasets found: "; Num (Z.of_nat total); NL]].

Definition sample_line : line := [Lit "Sample datasets (first 5):"; NL].

Definition add_lines (w : world) (ls : list line) : world :=
  {| stdout := stdout w ++ ls; requests := requests w;
     sleeps := sleeps w; files := files w |}.

(** What [print_summary] is to print, by the specification. *)
Definition expected_summary (datasets : list json) : list line :=
  summary_head (List.length datasets)
  ++ match datasets with
     | [] => []
     | _ => sample_line :: previews_from 1 (firstn 5 datasets)
     end.

(** ** Reading the file back: the [utf-8] decoder *)

Definition is_continuation (b : N) : bool := ((128 <=? b) && (b <? 192))%N.

(** [bytes.decode('utf-8')], error handler [strict]: overlong forms,
    surrogates and values beyond U+10FFFF are refused. *)
Fixpoint utf8_decode (bs : list N) : option pystr :=
  match bs with
  | [] => Some []
  | b0 :: r0 =>
      (if b0 <? 128 then option_map (cons b0) (utf8_decode r0)
       else if b0 <? 194 then None
       else if b0 <? 224 then
         match r0 with
         | b1 :: r1 =>
             if is_continuation b1
             then option_map (cons ((b0 - 192) * 64 + (b1 - 128))) (utf8_decode r1)
             else None
         | _ => None
         end
       else if b0 <? 240 then
         match r0 with
         | b1 :: b2 :: r2 =>
             let c := (b0 - 224) * 4096 + (b1 - 128) * 64 + (b2 - 128) in
             if is_continuation b1 && is_continuation b2
                && (2048 <=? c) && negb (is_surrogate c)
             then option_map (cons c) (utf8_decode r2)
             else None
         | _ => None
         end
       else if b0 <? 245 then
         match r0 with
         | b1 :: b2 :: b3 :: r3 =>
             let c := (b0 - 240) * 262144 + (b1 - 128) * 4096
                      + (b2 - 128) * 64 + (b3 - 128) in
             if is_continuation b1 && is_continuation b2 && is_continuation b3
                && (65536 <=? c) && (c <? 1114112)
             then option_map (cons c) (utf8_decode r3)
             else None
         | _ => None
         end
       else None)%N
  end.

(** A Unicode scalar value: a code point that is no surrogate. *)
Definition is_scalar (c : N) : bool := (c <? 1114112)%N && negb (is_surrogate c).

(** ** Reading the file back: [json.load]

    The scanner of the [json] module, on the text of the file: white space
    is skipped where the module skips it, strings are scanned strictly. *)

Definition is_ws (c : N) : bool :=
  ((c =? 32) || (c =? 9) || (c =? 10) || (c =? 13))%N.

Fixpoint skip_ws (s : pystr) : pystr :=
  match s with
  | c :: s' => if is_ws c then skip_ws s' else s
  | [] => []
  end.

Definition is_digit (c : N) : bool := ((48 <=? c) && (c <=? 57))%N.

Definition hex_val (c : N) : option N :=
  (if is_digit c then Some (c - 48)
   else if (97 <=? c) && (c <=? 102) then Some (c - 87)
   else if (65 <=? c) && (c <=? 70) then Some (c - 55)
   else None)%N.

(** The four hexadecimal digits of a [\uXXXX] escape. *)
Definition hex4 (a b c d : N) : option N :=
  match hex_val a, hex_val b, hex_val c, hex_val d with
  | Some x, Some y, Some z, Some t => Some (((x * 16 + y) * 16 + z) * 16 + t)%N
  | _, _, _, _ => None
  end.

(** The one-character escapes of a JSON string. *)
Definition unescape (e : N) : option N :=
  (if e =? 34 then Some 34
   else if e =? 92 then Some 92
   else if e =? 47 then Some 47
   else if e =? 98 then Some 8
   else if e =? 102 then Some 12
   else if e =? 110 then Some 10
   else if e =? 114 then Some 13
   else if e =? 116 then Some 9
   else None)%N.

Definition is_high_surrogate (c : N) : bool := ((55296 <=? c) && (c <=? 56319))%N.
Definition is_low_surrogate (c : N) : bool := ((56320 <=? c) && (c <=? 57343))%N.

Definition scan_more (c : N) (r : option (pystr * pystr)) : option (pystr * pystr) :=
  match r with
  | Some (t, rest) => Some (c :: t, rest)
  | None => None
  end.

(** [scanstring], strict: the text after an opening quote, up to the
    closing one; the decoded string and what follows it. *)
Fixpoint scanstring (s : pystr) : option (pystr * pystr) :=
  let more := scan_more in
  match s with
  | [] => None
  | c :: s1 =>
      if (c =? 34)%N then Some ([], s1)
      else if (c =? 92)%N then
        match s1 with
        | [] => None
        | e :: s2 =>
            if (e =? 117)%N then
              match s2 with
              | h1 :: h2 :: h3 :: h4 :: s3 =>
                  match hex4 h1 h2 h3 h4 with
                  | None => None
                  | Some uni =>
                      match s3 with
                      | a :: b :: l1 :: l2 :: l3 :: l4 :: s4 =>
                          if is_high_surrogate uni && (a =? 92)%N && (b =? 117)%N then
                            match hex4 l1 l2 l3 l4 with
                            | None => None
                            | Some uni2 =>
                                if is_low_surrogate uni2
                                then more (65536 + ((uni - 55296) * 1024 + (uni2 - 56320)))%N
                                          (scanstring s4)
                                else more uni (scanstring s3)
                            end
                          else more uni (scanstring s3)
                      | a :: b :: _ =>
                          if is_high_surrogate uni && (a =? 92)%N && (b =? 117)%N then None
                          else more uni (scanstring s3)
                      | _ => more uni (scanstring s3)
                      end
                  end
              | _ => None
              end
            else
              match unescape e with
              | Some c' => more c' (scanstring s2)
              | None => None
              end
        end
      else if (c <? 32)%N then None
      else more c (scanstring s1)
  end.

(** [[0-9]*], accumulating the value. *)
Fixpoint scan_digits (s : pystr) (acc : N) : N * pystr :=
  match s with
  | c :: s' => if is_digit c then scan_digits s' (10 * acc + (c - 48))%N else (acc, s)
  | [] => (acc, [])
  end.

(** [0|[1-9][0-9]*] *)
Definition scan_int (s : pystr) : option (N * pystr) :=
  match s with
  | c :: s' =>
      if (c =? 48)%N then Some (0%N, s')
      else if is_digit c then Some (scan_digits s' (c - 48)%N)
      else None
  | [] => None
  end.

(** [\.[0-9]+] follows. *)
Definition starts_frac (s : pystr) : bool :=
  match s with
  | c :: d :: _ => (c =? 46)%N && is_digit d
  | _ => false
  end.

(** [[eE][-+]?[0-9]+] follows. *)
Definition starts_exp (s : pystr) : bool :=
  match s with
  | e :: d :: r =>
      ((e =? 101) || (e =? 69))%N
      && (is_digit d
          || (((d =? 43) || (d =? 45))%N
              && match r with
                 | d2 :: _ => is_digit d2
                 | [] => false
                 end))
  | _ => false
  end.

(** A number.  One with a fraction or an exponent is a Python float, which
    this model does not hold: [None]. *)
Definition parse_number (s : pystr) : option (json * pystr) :=
  let (negative, s1) := match s with
                        | c :: r => if (c =? 45)%N then (true, r) else (false, s)
                        | [] => (false, s)
                        end in
  match scan_int s1 with
  | None => None
  | Some (n, rest) =>
      if starts_frac rest || starts_exp rest then None
      else Some (JInt (if negative then - Z.of_N n else Z.of_N n), rest)
  end.

Fixpoint starts_with (prefix s : pystr) : option pystr :=
  match prefix, s with
  | [], _ => Some s
  | p :: prefix', c :: s' => if (p =? c)%N then starts_with prefix' s' else None
  | _ :: _, [] => None
  end.

(** [dict(pairs)]: a repeated key keeps its first place and its last value. *)
Definition dict_of_pairs (pairs : list (pystr * json)) : list (pystr * json) :=
  fold_left (fun d kv => dict_set d (fst kv) (snd kv)) pairs [].

(** The scanner: a value at the head of [s], and what follows it. *)
Fixpoint parse_value (fuel : nat) (s : pystr) {struct fuel} : option (json * pystr) :=
  match fuel with
  | O => None
  | S fuel' =>
      match s with
      | [] => None
      | c :: s' =>
          if (c =? 34)%N then
            match scanstring s' with
            | Some (t, rest) => Some (JStr t, rest)
            | None => None
            end
          else if (c =? 123)%N then
            match skip_ws s' with
            | c1 :: r =>
                if (c1 =? 125)%N then Some (JDict [], r)
                else if (c1 =? 34)%N then parse_members fuel' [] r
                else None
            | [] => None
            end
          else if (c =? 91)%N then
            match skip_ws s' with
            | c1 :: r =>
                if (c1 =? 93)%N then Some (JList [], r)
                else parse_elements fuel' [] (c1 :: r)
            | [] => None
            end
          else
            match starts_with (str "null") s, starts_with (str "true") s,
                  starts_with (str "false") s with
            | Some rest, _, _ => Some (JNull, rest)
            | _, Some rest, _ => Some (JBool true, rest)
            | _, _, Some rest => Some (JBool false, rest)
            | None, None, None => parse_number s
            end
      end
  end
with parse_elements (fuel : nat) (acc : list json) (s : pystr) {struct fuel}
    : option (json * pystr) :=
  match fuel with
  | O => None
  | S fuel' =>
      match parse_value fuel' s with
      | None => None
      | Some (v, rest) =>
          match skip_ws rest with
          | c :: r =>
              if (c =? 93)%N then Some (JList (rev (v :: acc)), r)
              else if (c =? 44)%N then parse_elements fuel' (v :: acc) (skip_ws r)
              else None
          | [] => None
          end
      end
  end
with parse_members (fuel : nat) (acc : list (pystr * json)) (s : pystr) {struct fuel}
    : option (json * pystr) :=
  match fuel with
  | O => None
  | S fuel' =>
      match scanstring s with
      | None => None
      | Some (key, rest) =>
          match skip_ws rest with
          | c :: r =>
              if (c =? 58)%N then
                match parse_value fuel' (skip_ws r) with
                | None => None
                | Some (v, rest') =>
                    match skip_ws rest' with
                    | c' :: r' =>
                        if (c' =? 125)%N
                        then Some (JDict (dict_of_pairs (rev ((key, v) :: acc))), r')
                        else if (c' =? 44)%N then
                          match skip_ws r' with
                          | q :: r'' =>
                              if (q =? 34)%N then parse_members fuel' ((key, v) :: acc) r''
                              else None
                          | [] => None
                          end
                        else None
                    | [] => None
                    end
                end
              else None
          | [] => None
          end
      end
  end.

(** [json.loads(text)]: one value, white space around it, nothing else. *)
Definition json_loads (text : pystr) : option json :=
  if match text with
     | c :: _ => (c =? 65279)%N
     | [] => false
     end
  then None
  else
    match parse_value (S (List.length text)) (skip_ws text) with
    | Some (v, rest) =>
        match skip_ws rest with
        | [] => Some v
        | _ => None
        end
    | None => None
    end.

(** ** Well-formed values and measures *)

Fixpoint nodupb (l : list pystr) : bool :=
  match l with
  | [] => true
  | x :: r => negb (existsb (pystr_eqb x) r) && nodupb r
  end.

(** A Python dict holds a key once. *)
Fixpoint wf_json (v : json) : bool :=
  match v with
  | JList l => forallb wf_json l
  | JDict d =>
      nodupb (map fst d)
      && forallb (fun kv => let '(_, w) := kv in wf_json w) d
  | _ => true
  end.

(** The fuel the scanner needs for a value. *)
Fixpoint size (v : json) : nat :=
  match v with
  | JList l => S (fold_right (fun x n => S (size x + n)) 0 l)
  | JDict d => S (fold_right (fun kv n => let '(_, w) := kv in S (size w + n)) 0 d)
  | _ => 1
  end.

(** The characters a serialised value can start with. *)
Definition value_start (c : N) : bool :=
  ((c =? 110) || (c =? 116) || (c =? 102) || (c =? 45) || is_digit c
   || (c =? 34) || (c =? 91) || (c =? 123))%N.

Definition digits_value (ds : pystr) : N :=
  fold_left (fun a d => (10 * a + (d - 48))%N) ds 0%N.

(** What may follow a value in the serialised text: nothing, a comma or a
    line break. *)
Definition value_end (rest : pystr) : bool :=
  match rest with
  | [] => true
  | c :: _ => ((c =? 44) || (c =? 10))%N
  end.

(** The scanner reads the serialisation of [v] back, at any nesting level
    and whatever follows it. *)
Definition parses (indent : nat) (v : json) : Prop :=
  forall fuel level rest,
    (size v <= fuel)%nat ->
    value_end rest = true ->
    parse_value fuel (dumps_at false indent level v ++ rest) = Some (v, rest).

(** The text of the members that follow the first one. *)
Fixpoint members_rest (indent level : nat) (d : list (pystr * json)) : pystr :=
  match d with
  | [] => []
  | (k, w) :: d' =>
      44%N :: newline_indent indent level
      ++ 34%N :: flat_map (escape_char false) k
      ++ 34%N :: 58%N :: 32%N :: dumps_at false indent level w ++ members_rest indent level d'
  end.

(** The text of one member. *)
Definition entry (indent level : nat) (kv : pystr * json) : pystr :=
  let '(k, w) := kv in encode_basestring false k ++ str ": " ++ dumps_at false indent level w.

(** Every string of the value, keys included, holds Unicode scalar values
    only. *)
Fixpoint encodable (v : json) : bool :=
  match v with
  | JStr s => forallb is_scalar s
  | JList l => forallb encodable l
  | JDict d => forallb (fun kv => let '(k, w) := kv in forallb is_scalar k && encodable w) d
  | _ => true
  end.

Definition is_ascii (c : N) : bool := (c <? 128)%N.

(** [json.load(f)] on a file opened with [encoding='utf-8']. *)
Definition json_load (bytes : list N) : option json :=
  match utf8_decode bytes with
  | Some text => json_loads text
  | None => None
  end.

(** A text written with ['] where JSON has its double quote. *)
Definition quoted (s : string) : pystr :=
  map (fun c => if (c =? 39)%N then 34%N else c) (str s).

(** ** Pages of any API *)

(** The JSON object that answers the request for page [page], when the
    request succeeds and the body is an object. *)
Definition page_body (E : env) (p page : Z) : option (list (pystr * json)) :=
  match http_get E (make_params p page) with
  | Response status (Some (JDict d)) =>
      if is_failure (Response status (Some (JDict d))) then None else Some d
  | _ => None
  end.

(** [data.get("results", [])] and [data.get("meta", {})] *)
Definition results_of (d : list (pystr * json)) : json :=
  dict_get d (str "results") (JList []).

Definition meta_of (d : list (pystr * json)) : json :=
  dict_get d (str "meta") (JDict []).

(** The lines printed before the loop and after a page. *)
Definition announce_lines : list line :=
  [[Lit "Querying OpenAlex for datasets from Francis Crick Institute..."];
   [Lit "ROR ID: "; Lit crick_ror; NL]].

Definition progress_lines (page n total : Z) (count : json) : list line :=
  [[Lit "Page "; Num page; Lit ": Retrieved "; Num n; Lit " datasets"];
   [Lit "Total so far: "; Num total];
   [Lit "Total available: "; Val count; NL]].

(** An API that answers every page with one record, and an API whose
    first page is the body [data]. *)
Definition endless_env : env :=
  {| http_get := fun q =>
       Response 200 (Some (JDict [(str "results", JList [sample_record (p_page q)])]));
     can_write := fun _ => true;
     json_error_is_request_exception := true |}.

Definition body_env (data : json) : env :=
  {| http_get := fun _ => Response 200 (Some data);
     can_write := fun _ => true;
     json_error_is_request_exception := true |}.

(** Whether an iteration goes on to the next page. *)
Definition flow_of {A : Type} (r : result (flow * A)) : flow :=
  match r with
  | Ok (f, _) => f
  | Raise _ => Break
  end.

(** What the fetch returns when the loop ends on an iteration. *)
Definition outcome (r : result (flow * list json) * world) : result (list json) * world :=
  match r with
  | (Ok (_, all), w) => (Ok all, w)
  | (Raise e, w) => (Raise e, w)
  end.


(** The number of requests of a fetch against an API holding [k] records:
    one for each started page of the records wanted, and one more, answered
    with an empty page, when no limit stops the loop and the last page is
    full. *)
Definition request_count (k : nat) (p : Z) (max_results : option Z) : Z :=
  match max_results with
  | Some m =>
      if (m =? 0)%Z || (Z.of_nat k <? m)%Z then Z.of_nat k / p + 1 else (m - 1) / p + 1
  | None => Z.of_nat k / p + 1
  end.

(** The progress lines of page [page] of the API of the testable
    properties. *)
Definition progress_of (db : list json) (p page : Z) : list line :=
  progress_lines page
    (Z.of_nat (List.length (page_of db p page)))
    (Z.of_nat (List.length (firstn (Z.to_nat (page * p)) db)))
    (JInt (Z.of_nat (List.length db))).

(** * Properties *)

Ltac nlia := zify; Z.to_euclidean_division_equations; lia.

Ltac decide_tests :=
  repeat match goal with
         | |- context [(?a <? ?b)%N] =>
             destruct (N.ltb_spec a b); try (exfalso; nlia)
         | |- context [(?a <=? ?b)%N] =>
             destruct (N.leb_spec a b); try (exfalso; nlia)
         end.

Ltac splits := repeat match goal with |- _ /\ _ => split end.

Ltac norm_app := repeat (progress (rewrite <- ?app_assoc; cbn [app])).

(** ** Lists, strings and page numbers *)

Lemma pystr_eqb_eq (a b : pystr) : pystr_eqb a b = true <-> a = b.
Proof.
  revert b; induction a as [|x a IH]; intros [|y b]; simpl; split; intro H;
    try discriminate; try reflexivity.
  - apply andb_true_iff in H as [Hx Hab]. apply N.eqb_eq in Hx.
    apply IH in Hab. now subst.
  - injection H as -> ->. rewrite N.eqb_refl. now apply IH.
Qed.

Lemma firstn_plus (A : Type) (n m : nat) (l : list A) :
  firstn (n + m) l = firstn n l ++ firstn m (skipn n l).
Proof.
  revert l; induction n as [|n IH]; intros [|x l]; simpl; try reflexivity.
  - now rewrite firstn_nil.
  - now rewrite IH.
Qed.

Lemma pages_S (from : Z) (n : nat) :
  pages from (S n) = from :: pages (from + 1) n.
Proof.
  unfold pages. simpl. rewrite Z.add_0_r. f_equal.
  rewrite <- seq_shift, map_map. apply map_ext. intros i. lia.
Qed.

Lemma pages_snoc (from : Z) (n : nat) :
  pages from (S n) = pages from n ++ [(from + Z.of_nat n)%Z].
Proof.
  unfold pages. rewrite seq_S, map_app. reflexivity.
Qed.

Lemma concat_pages (db : list json) (p : Z) (c : nat) :
  (0 <= p)%Z ->
  flat_map (page_of db p) (pages 1 c) = firstn (c * Z.to_nat p) db.
Proof.
  intros Hp. induction c as [|c IH]; [reflexivity|].
  rewrite pages_snoc, flat_map_app, IH. cbn [flat_map]. rewrite app_nil_r.
  unfold page_of.
  replace (Z.to_nat ((1 + Z.of_nat c - 1) * p)) with (c * Z.to_nat p)%nat by nia.
  rewrite <- firstn_plus. f_equal. lia.
Qed.

Lemma extends_trans {w1 w2 w3 r1 r2 n1 n2} :
  extends w1 w2 r1 n1 -> extends w2 w3 r2 n2 -> extends w1 w3 (r1 ++ r2) (n1 + n2).
Proof.
  intros (Hr1 & Hs1 & Hf1) (Hr2 & Hs2 & Hf2). repeat split.
  - rewrite Hr2, Hr1. now rewrite app_assoc.
  - lia.
  - congruence.
Qed.

(** ** One iteration of the fetch loop *)

(** The part of the [try] block after the request raises nothing the
    handler would catch. *)
Lemma process_page_not_caught E p max page all results meta w e w' :
  process_page p max page all results meta w = (Raise e, w') ->
  is_request_exception E e = false.
Proof.
  unfold process_page.
  destruct (negb (truthy results)); [discriminate|].
  destruct (py_iter results) as [items|], (py_len results) as [n|];
    try (intros [= <- _]; reflexivity).
  destruct meta; cbn; try (intros [= <- _]; reflexivity).
  destruct (max_reached max _); [destruct max; discriminate|].
  destruct (n <? p)%Z; discriminate.
Qed.

Lemma process_page_list p max page all rs m w :
  exists w',
    process_page p max page all (JList rs) (JDict m) w = (Ok (page_outcome p max all rs), w')
    /\ extends w w' [] (naps_of (fst (page_outcome p max all rs))).
Proof.
  unfold process_page, page_outcome, extends.
  destruct rs as [|r rs].
  - exists w. cbn. repeat split; auto using app_nil_r.
  - cbn [truthy negb py_iter py_len py_get bind ret print].
    destruct (max_reached max (all ++ r :: rs)).
    + eexists; split; [destruct max; reflexivity|]. cbn. repeat split; auto using app_nil_r.
    + destruct (Z.of_nat (List.length (r :: rs)) <? p)%Z.
      * eexists; split; [reflexivity|]. cbn. repeat split; auto using app_nil_r.
      * eexists; split; [reflexivity|]. cbn. repeat split; auto using app_nil_r. lia.
Qed.

Lemma get_crick_datasets_loop E fuel p max w :
  exists w2,
    get_crick_datasets E fuel p max w = fetch_loop E fuel p max 1 [] w2
    /\ extends w w2 [] 0.
Proof.
  eexists. split; [reflexivity|]. cbn. repeat split; auto using app_nil_r.
Qed.

(** ** The loop against the API of the testable properties *)

Section MockRun.

Variables (E : env) (db : list json) (fail : option (Z * response)).
Variables (p : Z) (max : option Z).
Hypothesis Hget : forall q, http_get E q = mock_api db fail q.

Lemma fetch_page_served page all w :
  served fail page ->
  fetch_page E p max page all w =
  process_page p max page all (JList (page_of db p page))
    (JDict (api_meta db (make_params p page)))
    (snd (log_request (make_params p page) w)).
Proof.
  intros Hs. unfold fetch_page, try_page, get_json, bind at 1 2 3 4.
  cbn [log_request]. rewrite Hget. unfold mock_api.
  replace (match fail with
           | Some (n, failure) =>
               if (p_page (make_params p page) =? n)%Z then failure
               else Response 200 (Some (api_body db (make_params p page)))
           | None => Response 200 (Some (api_body db (make_params p page)))
           end) with (Response 200 (Some (api_body db (make_params p page)))).
  2:{ unfold served in Hs. destruct fail as [[n f]|]; [|reflexivity].
      cbn [p_page make_params]. destruct (Z.eqb_spec page n); [contradiction|reflexivity]. }
  cbn [Z.leb Z.ltb andb Z.compare Pos.compare Pos.compare_cont ret snd].
  change (py_get (api_body db (make_params p page)) "results" (JList []))
    with (ret (A:=json) (JList (page_of db p page))).
  change (py_get (api_body db (make_params p page)) "meta" (JDict []))
    with (ret (A:=json) (JDict (api_meta db (make_params p page)))).
  cbn [ret].
  destruct (process_page _ _ _ _ _ _ _) as [[v|e] w'] eqn:Hpp; [reflexivity|].
  apply (process_page_not_caught E) in Hpp. now rewrite Hpp.
Qed.

Hypothesis Hp : (1 <= p)%Z.

Local Abbreviation k := (List.length db).

Lemma page_of_consumed page n :
  Z.of_nat n = ((page - 1) * p)%Z ->
  page_of db p page = firstn (Z.to_nat p) (skipn n db).
Proof.
  intros Hn. unfold page_of. now rewrite <- Hn, Nat2Z.id.
Qed.

Lemma limit_all (n : nat) :
  (forall m, max = Some m -> m <> 0%Z -> (Z.of_nat n < m)%Z) ->
  (k <= n)%nat ->
  limit max k = k.
Proof.
  intros Hlt Hn. unfold limit. destruct max as [m|]; [|reflexivity].
  destruct (Z.eqb_spec m 0) as [Hm0|Hm0]; [reflexivity|].
  specialize (Hlt m eq_refl Hm0). lia.
Qed.

Lemma stops_at_all (n : nat) (j : Z) :
  (forall m, max = Some m -> m <> 0%Z -> (Z.of_nat n < m)%Z) ->
  (k <= n)%nat ->
  ((j - 1) * p <= Z.of_nat k < j * p)%Z ->
  stops_at k p max j.
Proof.
  intros Hlt Hn Hj. unfold stops_at. destruct max as [m|]; [|assumption].
  destruct (Z.eqb_spec m 0) as [Hm0|Hm0]; [assumption|]. cbn [orb].
  specialize (Hlt m eq_refl Hm0).
  destruct (Z.ltb_spec (Z.of_nat k) m); [assumption|lia].
Qed.

Lemma max_not_reached (all : list json) :
  max_reached max all = false ->
  forall m, max = Some m -> m <> 0%Z -> (Z.of_nat (List.length all) < m)%Z.
Proof.
  unfold max_reached. intros H m -> Hm0.
  destruct (Z.eqb_spec m 0); [contradiction|]. cbn [negb andb] in H.
  now apply Z.leb_gt in H.
Qed.

Lemma fetch_loop_served fuel :
  forall page all w n,
    (forall j, (page <= j)%Z -> served fail j) ->
    (forall m, max = Some m -> (0 <= m)%Z) ->
    all = firstn n db ->
    Z.of_nat n = ((page - 1) * p)%Z ->
    (n <= k)%nat ->
    (forall m, max = Some m -> m <> 0%Z -> (Z.of_nat n < m)%Z) ->
    (k - n < fuel)%nat ->
    exists w' c,
      fetch_loop E fuel p max page all w = Some (Ok (firstn (limit max k) db), w')
      /\ extends w w' (map (make_params p) (pages page (S c))) c
      /\ stops_at k p max (page + Z.of_nat c).
Proof.
  induction fuel as [|fuel IH]; intros page all w n Hserved Hmax Hall Hn Hnk Hlt Hfuel; [lia|].
  cbn [fetch_loop]. rewrite fetch_page_served by (apply Hserved; lia).
  destruct (process_page_list p max page all (page_of db p page)
              (api_meta db (make_params p page))
              (snd (log_request (make_params p page) w))) as (w1 & Hrun & Hext).
  rewrite Hrun.
  assert (Hreq : extends w (snd (log_request (make_params p page) w)) [make_params p page] 0).
  { cbn. repeat split; auto. }
  pose proof (extends_trans Hreq Hext) as Hw1. cbn [app Nat.add] in Hw1.
  clear Hrun Hext Hreq.
  rewrite (@page_of_consumed page n Hn) in *.
  set (P := Z.to_nat p) in *.
  assert (HP : (1 <= P)%nat) by (subst P; lia).
  assert (HPp : Z.of_nat P = p) by (subst P; lia).
  assert (Hlen : List.length (firstn P (skipn n db)) = Nat.min P (k - n)).
  { now rewrite length_firstn, length_skipn. }
  assert (Hall' : all ++ firstn P (skipn n db) = firstn (n + P) db).
  { subst all. now rewrite firstn_plus. }
  assert (Hlen_all : List.length (all ++ firstn P (skipn n db)) = Nat.min (n + P) k).
  { rewrite Hall', length_firstn. reflexivity. }
  unfold page_outcome in *.
  destruct (firstn P (skipn n db)) as [|r rs'] eqn:Hrs.
  - (* an empty page: every record has been served *)
    cbn [fst naps_of] in Hw1. cbn [List.length] in Hlen.
    assert (Hk : (k <= n)%nat) by lia.
    exists w1, 0%nat. rewrite Z.add_0_r. split; [|split].
    + rewrite (limit_all n Hlt Hk). subst all.
      now rewrite !firstn_all2 by lia.
    + rewrite pages_S. exact Hw1.
    + apply stops_at_all with (n := n); [exact Hlt|exact Hk|lia].
  - rewrite <- Hrs in *. clear Hrs r rs'.
    destruct (max_reached max (all ++ firstn P (skipn n db))) eqn:Hreached.
    + (* the limit is reached on this page *)
      cbn [fst naps_of] in Hw1.
      unfold max_reached in Hreached. destruct max as [m|] eqn:Emax; [|discriminate].
      apply andb_true_iff in Hreached as [Hm0 Hm].
      apply negb_true_iff, Z.eqb_neq in Hm0. apply Z.leb_le in Hm.
      specialize (Hlt m eq_refl Hm0). specialize (Hmax m eq_refl).
      exists w1, 0%nat. rewrite Z.add_0_r. split; [|split].
      * unfold slice_to, limit.
        destruct (Z.ltb_spec m 0); [lia|].
        destruct (Z.eqb_spec m 0); [contradiction|].
        rewrite Hall', firstn_firstn.
        replace (Nat.min (Z.to_nat m) (n + P)) with (Nat.min k (Z.to_nat m)) by lia.
        reflexivity.
      * rewrite pages_S. exact Hw1.
      * unfold stops_at.
        destruct (Z.eqb_spec m 0); [contradiction|]. cbn [orb].
        destruct (Z.ltb_spec (Z.of_nat k) m); lia.
    + pose proof (max_not_reached _ Hreached) as Hlt'. rewrite Hlen_all in Hlt'.
      destruct (Z.ltb_spec (Z.of_nat (List.length (firstn P (skipn n db)))) p) as [Hshort|Hfull].
      * (* a short page: the last one *)
        cbn [fst naps_of] in Hw1.
        assert (Hk : (k <= n + P)%nat) by lia.
        assert (Hlt'' : forall m, max = Some m -> m <> 0%Z -> (Z.of_nat k < m)%Z).
        { intros m Hm Hm0. specialize (Hlt' m Hm Hm0). lia. }
        exists w1, 0%nat. rewrite Z.add_0_r. split; [|split].
        -- rewrite (limit_all k Hlt'' (le_n k)), Hall'.
           now rewrite !firstn_all2 by lia.
        -- rewrite pages_S. exact Hw1.
        -- apply stops_at_all with (n := k); [exact Hlt''|exact (le_n k)|lia].
      * (* a full page: go on *)
        cbn [fst naps_of] in Hw1.
        assert (n + P <= k)%nat by lia.
        destruct (IH (page + 1)%Z (all ++ firstn P (skipn n db)) w1 (n + P)%nat)
          as (w' & c & Hloop & Hext & Hstop); try assumption; try lia.
        -- intros j Hj. apply Hserved. lia.
        -- intros m Hm Hm0. specialize (Hlt' m Hm Hm0). lia.
        -- exists w', (S c). split; [exact Hloop|split].
           ++ rewrite (pages_S page (S c)). exact (extends_trans Hw1 Hext).
           ++ replace (page + Z.of_nat (S c))%Z with (page + 1 + Z.of_nat c)%Z by lia.
              exact Hstop.
Qed.

End MockRun.

Section Served.

Variables (E : env) (db : list json) (p : Z).
Hypothesis Hget : forall q, http_get E q = mock_api db None q.
Hypothesis Hp : (1 <= p)%Z.

Lemma fetch_served max fuel w :
  (forall m, max = Some m -> (0 <= m)%Z) ->
  (List.length db < fuel)%nat ->
  exists w' c,
    get_crick_datasets E fuel p max w = Some (Ok (firstn (limit max (List.length db)) db), w')
    /\ extends w w' (map (make_params p) (pages 1 (S c))) c
    /\ stops_at (List.length db) p max (1 + Z.of_nat c).
Proof.
  intros Hmax Hfuel.
  destruct (get_crick_datasets_loop E fuel p max w) as (w2 & -> & Hw2).
  destruct (fetch_loop_served E db None p max Hget Hp fuel 1%Z [] w2 0%nat) as (w' & c & Hrun & Hext & Hstop);
    try (cbn; auto; lia).
  - intros m Hm Hm0. specialize (Hmax m Hm). lia.
  - exists w', c. split; [exact Hrun|]. split; [|exact Hstop].
    exact (extends_trans Hw2 Hext).
Qed.

End Served.

(** ** What the fetch returns *)

Lemma stops_at_covers (k : nat) (p : Z) (max : option Z) (c : nat) :
  (1 <= p)%Z ->
  (forall m, max = Some m -> (0 <= m)%Z) ->
  stops_at k p max (1 + Z.of_nat c) ->
  (limit max k <= S c * Z.to_nat p)%nat /\ (limit max k <= k)%nat.
Proof.
  intros Hp Hmax Hstop.
  assert (HX : Z.of_nat (S c * Z.to_nat p) = ((1 + Z.of_nat c) * p)%Z) by nia.
  unfold stops_at, limit in *. destruct max as [m|]; [|lia].
  specialize (Hmax m eq_refl).
  destruct (Z.eqb_spec m 0); cbn [orb] in Hstop; [lia|].
  destruct (Z.ltb_spec (Z.of_nat k) m); lia.
Qed.

(** C1: for every page size p with 1 <= p <= 200 and an API serving k
    records in pages, [get_crick_datasets] returns exactly
    min(k, max_results or infinity) records: the first that many of the
    concatenation of the pages' [results] arrays in arrival order, which is
    the server's own order. *)
Theorem fetch_returns_min_in_order (E : env) (db : list json) (p : Z)
    (max_results : option Z) (fuel : nat) (w : world) :
  (forall q, http_get E q = mock_api db None q) ->
  (1 <= p <= 200)%Z ->
  (forall m, max_results = Some m -> (0 <= m)%Z) ->
  (List.length db < fuel)%nat ->
  exists ds w' c,
    get_crick_datasets E fuel p max_results w = Some (Ok ds, w')
    /\ requests w' = requests w ++ map (make_params p) (pages 1 c)
    /\ ds = firstn (limit max_results (List.length db)) (flat_map (page_of db p) (pages 1 c))
    /\ ds = firstn (limit max_results (List.length db)) db
    /\ List.length ds = limit max_results (List.length db).
Proof.
  intros Hget [Hp _] Hmax Hfuel.
  destruct (fetch_served E db p Hget Hp max_results fuel w Hmax Hfuel) as (w' & c & Hrun & (Hreq & _) & Hstop).
  destruct (stops_at_covers _ _ _ c Hp Hmax Hstop) as [Hc Hk].
  exists (firstn (limit max_results (List.length db)) db), w', (S c).
  repeat split; try assumption.
  - rewrite concat_pages by lia. rewrite firstn_firstn. f_equal. lia.
  - rewrite length_firstn. lia.
Qed.

Lemma fetch_returns_min_in_order_witness :
  exists ds w' c,
    get_crick_datasets (mock_env (sample_db 7) None true) 8 3 (Some 5%Z) empty_world = Some (Ok ds, w')
    /\ requests w' = requests empty_world ++ map (make_params 3) (pages 1 c)
    /\ ds = firstn (limit (Some 5%Z) (List.length (sample_db 7))) (flat_map (page_of (sample_db 7) 3) (pages 1 c))
    /\ ds = firstn (limit (Some 5%Z) (List.length (sample_db 7))) (sample_db 7)
    /\ List.length ds = limit (Some 5%Z) (List.length (sample_db 7)).
Proof.
  apply (fetch_returns_min_in_order (mock_env (sample_db 7) None true) (sample_db 7) 3 (Some 5%Z) 8 empty_world).
  - reflexivity.
  - lia.
  - intros m [= <-]. lia.
  - vm_compute. lia.
Defined.

(** A negative [max_results] is truthy and reached at once, and the slice
    [all_datasets[:max_results]] then drops records from the end of the
    first page. *)
Example negative_max_results_slices_first_page :
  option_map fst (get_crick_datasets (mock_env (sample_db 5) None true) 6 2 (Some (-1)%Z)
                    empty_world)
  = Some (Ok (firstn 1 (sample_db 5))).
Proof. reflexivity. Qed.

Lemma process_page_max_zero p page all results meta w :
  process_page p (Some 0%Z) page all results meta w = process_page p None page all results meta w.
Proof. reflexivity. Qed.

Lemma fetch_loop_max_zero E fuel p :
  forall page all w,
    fetch_loop E fuel p (Some 0%Z) page all w = fetch_loop E fuel p None page all w.
Proof.
  induction fuel as [|fuel IH]; intros page all w; [reflexivity|].
  cbn [fetch_loop].
  replace (fetch_page E p (Some 0%Z) page all w) with (fetch_page E p None page all w)
    by reflexivity.
  destruct (fetch_page E p None page all w) as [[[[|] all']|e] w']; auto.
Qed.

(** C10: [max_results = 0] is treated as no limit at all: the fetch runs
    exactly as with [max_results = None], and on an API serving the records
    [db] it returns every one of them, not an empty collection. *)
Theorem max_results_zero_is_no_limit (E : env) (db : list json) (p : Z)
    (fuel : nat) (w : world) :
  (forall q, http_get E q = mock_api db None q) ->
  (1 <= p)%Z ->
  (List.length db < fuel)%nat ->
  get_crick_datasets E fuel p (Some 0%Z) w = get_crick_datasets E fuel p None w
  /\ exists w', get_crick_datasets E fuel p (Some 0%Z) w = Some (Ok db, w').
Proof.
  intros Hget Hp Hfuel. split.
  - unfold get_crick_datasets. apply fetch_loop_max_zero.
  - destruct (fetch_served E db p Hget Hp (Some 0%Z) fuel w) as (w' & c & Hrun & _); auto.
    + intros m [= <-]. lia.
    + exists w'. rewrite Hrun. cbn [limit Z.eqb]. now rewrite firstn_all.
Qed.

Lemma max_results_zero_is_no_limit_witness :
  get_crick_datasets (mock_env (sample_db 5) None true) 6 2 (Some 0%Z) empty_world
  = get_crick_datasets (mock_env (sample_db 5) None true) 6 2 None empty_world
  /\ exists w', get_crick_datasets (mock_env (sample_db 5) None true) 6 2 (Some 0%Z) empty_world
                = Some (Ok (sample_db 5), w').
Proof.
  apply (max_results_zero_is_no_limit (mock_env (sample_db 5) None true) (sample_db 5) 2 6 empty_world).
  - reflexivity.
  - lia.
  - vm_compute. lia.
Defined.

(** C4: with [max_results = m] and an API holding more than [m] records,
    the result has exactly [m] records and is the first [m] of what the
    unbounded fetch returns.  The pages before the last requested one hold
    fewer than [m] records; the last one is requested with the same page
    size as the others and what it brings beyond [m] is cut off afterwards. *)
Theorem max_results_truncates (E : env) (db : list json) (p m : Z)
    (fuel : nat) (w : world) :
  (forall q, http_get E q = mock_api db None q) ->
  (1 <= p)%Z ->
  (0 < m < Z.of_nat (List.length db))%Z ->
  (List.length db < fuel)%nat ->
  exists ds w' unbounded w0 c,
    get_crick_datasets E fuel p (Some m) w = Some (Ok ds, w')
    /\ get_crick_datasets E fuel p None w = Some (Ok unbounded, w0)
    /\ Z.of_nat (List.length ds) = m
    /\ ds = firstn (Z.to_nat m) unbounded
    /\ requests w' = requests w ++ map (make_params p) (pages 1 (S c))
    /\ (Z.of_nat (List.length (flat_map (page_of db p) (pages 1 c))) < m)%Z
    /\ (m <= Z.of_nat (List.length (flat_map (page_of db p) (pages 1 (S c)))))%Z
    /\ ds = firstn (Z.to_nat m) (flat_map (page_of db p) (pages 1 (S c))).
Proof.
  intros Hget Hp Hm Hfuel.
  destruct (fetch_served E db p Hget Hp (Some m) fuel w) as (w' & c & Hrun & (Hreq & _) & Hstop);
    [intros m' [= <-]; lia | exact Hfuel |].
  destruct (fetch_served E db p Hget Hp None fuel w) as (w0 & c0 & Hrun0 & _);
    [discriminate | exact Hfuel |].
  cbn [limit] in Hrun0. rewrite firstn_all in Hrun0.
  unfold stops_at in Hstop. unfold limit in Hrun.
  destruct (Z.eqb_spec m 0) as [|_]; [lia|]. cbn [orb] in Hstop.
  destruct (Z.ltb_spec (Z.of_nat (List.length db)) m) as [|_]; [lia|].
  replace (Nat.min (List.length db) (Z.to_nat m)) with (Z.to_nat m) in Hrun by lia.
  assert (HS : Z.of_nat (S c * Z.to_nat p) = ((1 + Z.of_nat c) * p)%Z) by nia.
  assert (Hc : Z.of_nat (c * Z.to_nat p) = ((1 + Z.of_nat c - 1) * p)%Z) by nia.
  exists (firstn (Z.to_nat m) db), w', db, w0, c.
  rewrite !concat_pages by lia. rewrite !length_firstn, firstn_firstn.
  repeat split; try assumption; try lia.
  f_equal. lia.
Qed.

Lemma max_results_truncates_witness :
  exists ds w' unbounded w0 c,
    get_crick_datasets (mock_env (sample_db 7) None true) 8 3 (Some 4%Z) empty_world = Some (Ok ds, w')
    /\ get_crick_datasets (mock_env (sample_db 7) None true) 8 3 None empty_world = Some (Ok unbounded, w0)
    /\ Z.of_nat (List.length ds) = 4%Z
    /\ ds = firstn (Z.to_nat 4) unbounded
    /\ requests w' = requests empty_world ++ map (make_params 3) (pages 1 (S c))
    /\ (Z.of_nat (List.length (flat_map (page_of (sample_db 7) 3) (pages 1 c))) < 4)%Z
    /\ (4 <= Z.of_nat (List.length (flat_map (page_of (sample_db 7) 3) (pages 1 (S c)))))%Z
    /\ ds = firstn (Z.to_nat 4) (flat_map (page_of (sample_db 7) 3) (pages 1 (S c))).
Proof.
  apply (max_results_truncates (mock_env (sample_db 7) None true) (sample_db 7) 3 4 8 empty_world).
  - reflexivity.
  - lia.
  - vm_compute. split; reflexivity.
  - vm_compute. lia.
Defined.

(** C8: with exactly 450 matching records and page size 200 the fetch
    issues exactly three requests, for pages 1, 2 and 3, which bring 200,
    200 and 50 records, and returns all 450 records. *)
Theorem scenario_450_records (E : env) (db : list json) (fuel : nat) (w : world) :
  (forall q, http_get E q = mock_api db None q) ->
  List.length db = 450%nat ->
  (450 < fuel)%nat ->
  exists w',
    get_crick_datasets E fuel 200 None w = Some (Ok db, w')
    /\ requests w' = requests w ++ [make_params 200 1; make_params 200 2; make_params 200 3]
    /\ map (fun j => List.length (page_of db 200 j)) [1; 2; 3]%Z = [200; 200; 50]%nat
    /\ List.length db = 450%nat.
Proof.
  intros Hget Hlen Hfuel.
  destruct (fetch_served E db 200 Hget ltac:(lia) None fuel w) as (w' & c & Hrun & (Hreq & _) & Hstop);
    [discriminate | lia |].
  cbn [limit] in Hrun. rewrite firstn_all in Hrun.
  unfold stops_at in Hstop. rewrite Hlen in Hstop.
  assert (c = 2%nat) by lia. subst c.
  exists w'. repeat split; try assumption.
  cbn [map]. unfold page_of. rewrite !length_firstn, !length_skipn, Hlen. reflexivity.
Qed.

Lemma scenario_450_records_witness :
  exists w',
    get_crick_datasets (mock_env (sample_db 450) None true) 451 200 None empty_world
      = Some (Ok (sample_db 450), w')
    /\ requests w' = requests empty_world ++ [make_params 200 1; make_params 200 2; make_params 200 3]
    /\ map (fun j => List.length (page_of (sample_db 450) 200 j)) [1; 2; 3]%Z = [200; 200; 50]%nat
    /\ List.length (sample_db 450) = 450%nat.
Proof.
  apply (scenario_450_records (mock_env (sample_db 450) None true) (sample_db 450) 451 empty_world).
  - reflexivity.
  - vm_compute. reflexivity.
  - lia.
Defined.

(** ** Requests that fail *)

Lemma fetch_page_failure E p max page all w :
  is_failure (http_get E (make_params p page)) = true ->
  fetch_page E p max page all w
  = (Ok (Break, all),
     after_error (make_params p page) (request_error (http_get E (make_params p page))) w).
Proof.
  intros Hfail. unfold fetch_page, try_page, get_json, bind at 1 2 3 4.
  cbn [log_request].
  destruct (http_get E (make_params p page)) as [msg|status body]; cbn in Hfail |- *.
  - reflexivity.
  - rewrite Hfail. reflexivity.
Qed.

Lemma fetch_page_continue E p max page all all' w w' :
  fetch_page E p max page all w = (Ok (Continue, all'), w') ->
  all' = all ++ page_items E p page /\ extends w w' [make_params p page] 1.
Proof.
  unfold fetch_page, try_page, get_json, page_items, bind at 1 2 3 4.
  cbn [log_request].
  destruct (http_get E (make_params p page)) as [msg|status body].
  - cbn. discriminate.
  - destruct ((400 <=? status)%Z && (status <? 600)%Z).
    + cbn. discriminate.
    + destruct body as [data|].
      * cbn [ret]. destruct data; cbn [py_get raise is_request_exception]; try discriminate.
        cbn [bind ret].
        set (results := dict_get d (str "results") (JList [])).
        set (meta := dict_get d (str "meta") (JDict [])).
        match goal with |- context [process_page ?a ?b ?c ?d ?e ?f ?g] =>
          destruct (process_page a b c d e f g) as [[v|e0] w1] eqn:Hpp end.
        -- intros [= -> ->]. revert Hpp. unfold process_page.
           destruct (negb (truthy results)); [discriminate|].
           destruct (py_iter results) as [items|]; [|discriminate].
           destruct (py_len results) as [len|]; [|discriminate].
           cbn [bind print].
           destruct meta; cbn [py_get raise ret bind print]; try discriminate.
           destruct (max_reached max (all ++ items)); [destruct max; discriminate|].
           destruct (len <? p)%Z; [discriminate|].
           cbn [sleep bind ret]. intros [= <- <-]. split; [reflexivity|].
           unfold extends. cbn. repeat split; auto. lia.
        -- destruct (is_request_exception E e0); cbn; discriminate.
      * cbn [raise is_request_exception]. destruct (json_error_is_request_exception E); cbn; discriminate.
Qed.

Lemma after_pages_run E p max (n : nat) :
  forall page all w page' all' w',
    after_pages E n p max page all w = Some (page', all', w') ->
    page' = (page + Z.of_nat n)%Z
    /\ all' = all ++ flat_map (page_items E p) (pages page n)
    /\ extends w w' (map (make_params p) (pages page n)) n
    /\ forall fuel, fetch_loop E (n + fuel) p max page all w = fetch_loop E fuel p max page' all' w'.
Proof.
  induction n as [|n IH]; intros page all w page' all' w' Hrun.
  - injection Hrun as <- <- <-. rewrite Z.add_0_r, app_nil_r.
    repeat split; cbn; auto using app_nil_r.
  - cbn [after_pages] in Hrun.
    destruct (fetch_page E p max page all w) as [[[[|] all1]|e] w1] eqn:Hpage; try discriminate.
    destruct (fetch_page_continue _ _ _ _ _ _ _ _ Hpage) as [-> Hext1].
    destruct (IH _ _ _ _ _ _ Hrun) as (-> & -> & Hext & Hloop).
    split; [lia|]. split; [|split].
    + rewrite pages_S. cbn [flat_map]. now rewrite app_assoc.
    + rewrite pages_S. exact (extends_trans Hext1 Hext).
    + intros fuel. cbn [Nat.add fetch_loop]. rewrite Hpage. apply Hloop.
Qed.



(** ** A body that is not JSON *)

Lemma fetch_page_bad_json E p max page all w status :
  http_get E (make_params p page) = Response status None ->
  is_failure (Response status None) = false ->
  fetch_page E p max page all w
  = if json_error_is_request_exception E
    then (Ok (Break, all), after_error (make_params p page) JSONDecodeError w)
    else (Raise JSONDecodeError, after_request (make_params p page) w).
Proof.
  intros Hget Hok. unfold fetch_page, try_page, get_json, bind at 1 2 3 4.
  cbn [log_request]. rewrite Hget. cbn [is_failure] in Hok. rewrite Hok.
  cbn [raise is_request_exception].
  destruct (json_error_is_request_exception E); reflexivity.
Qed.

(** C3, as the code has it: what becomes of a body that does not parse
    depends on the installed [requests].  Where the exception of
    [response.json()] is no [RequestException], it leaves
    [get_crick_datasets] uncaught and [main] ends with a non-zero status;
    where it is one, the handler catches it like a network error: the
    error is printed and the records accumulated so far are returned. *)
Theorem json_parse_failure_by_library (E : env) (p : Z) (max_results : option Z)
    (n fuel : nat) (w0 w : world) (page : Z) (all : list json) (status : Z) :
  after_pages E n p max_results 1 [] (snd (announce w0)) = Some (page, all, w) ->
  http_get E (make_params p page) = Response status None ->
  is_failure (Response status None) = false ->
  (n < fuel)%nat ->
  (json_error_is_request_exception E = false ->
     get_crick_datasets E fuel p max_results w0
       = Some (Raise JSONDecodeError, after_request (make_params p page) w)
     /\ (p = 200%Z -> max_results = None ->
         option_map (fun r => exit_status (fst r)) (main E fuel w0) = Some 1%Z))
  /\ (json_error_is_request_exception E = true ->
     get_crick_datasets E fuel p max_results w0
       = Some (Ok all, after_error (make_params p page) JSONDecodeError w)).
Proof.
  intros Hrun Hget Hok Hfuel.
  destruct (after_pages_run _ _ _ _ _ _ _ _ _ _ Hrun) as (_ & _ & _ & Hloop).
  assert (Hres : get_crick_datasets E fuel p max_results w0
                 = match fetch_page E p max_results page all w with
                   | (Ok (_, all'), w') => Some (Ok all', w')
                   | (Raise e, w') => Some (Raise e, w')
                   end).
  { unfold get_crick_datasets.
    replace fuel with (n + S (fuel - S n))%nat by lia.
    rewrite Hloop. cbn [fetch_loop].
    rewrite (fetch_page_bad_json E p max_results page all w status Hget Hok).
    destruct (json_error_is_request_exception E); reflexivity. }
  rewrite (fetch_page_bad_json E p max_results page all w status Hget Hok) in Hres.
  split; intros Hlib; rewrite Hlib in Hres.
  - split; [exact Hres|]. intros -> ->. unfold main. rewrite Hres. reflexivity.
  - exact Hres.
Qed.

Lemma json_parse_failure_by_library_witness :
  (json_error_is_request_exception (bad_json_env false) = false ->
     get_crick_datasets (bad_json_env false) 1 200 None empty_world
       = Some (Raise JSONDecodeError, after_request (make_params 200 1) (snd (announce empty_world)))
     /\ (200%Z = 200%Z -> @None Z = None ->
         option_map (fun r => exit_status (fst r)) (main (bad_json_env false) 1 empty_world) = Some 1%Z))
  /\ (json_error_is_request_exception (bad_json_env false) = true ->
     get_crick_datasets (bad_json_env false) 1 200 None empty_world
       = Some (Ok [], after_error (make_params 200 1) JSONDecodeError (snd (announce empty_world)))).
Proof.
  apply (json_parse_failure_by_library (bad_json_env false) 200 None 0 1 empty_world
           (snd (announce empty_world)) 1 [] 200).
  - reflexivity.
  - reflexivity.
  - reflexivity.
  - lia.
Defined.

(** Under a [requests] whose JSON error is a [RequestException], a body
    that does not parse is caught: the fetch returns normally and the
    process ends with status 0. *)
Lemma json_parse_failure_caught :
  option_map fst (get_crick_datasets (bad_json_env true) 1 200 None empty_world) = Some (Ok [])
  /\ option_map (fun r => exit_status (fst r)) (main (bad_json_env true) 1 empty_world) = Some 0%Z.
Proof. split; reflexivity. Qed.

(** ** The summary *)

Lemma add_lines_nil w : add_lines w [] = w.
Proof. destruct w. unfold add_lines. cbn. now rewrite app_nil_r. Qed.

Lemma add_lines_app w l1 l2 : add_lines (add_lines w l1) l2 = add_lines w (l1 ++ l2).
Proof. unfold add_lines. cbn. now rewrite app_assoc. Qed.

Lemma print_add_lines l w : print l w = (Ok tt, add_lines w [l]).
Proof. reflexivity. Qed.

Lemma dict_get_field_or d key default :
  dict_get d (str key) default = field_or d key default.
Proof.
  unfold field_or, dict_has. induction d as [|[k v] d IH]; [reflexivity|].
  cbn [dict_get existsb fst]. destruct (pystr_eqb k (str key)); [reflexivity|exact IH].
Qed.

Lemma preview_ok i v w :
  previewable v = true ->
  preview i v w = (Ok tt, add_lines w (preview_lines i v)).
Proof.
  destruct v as [| | | | |d]; try discriminate. cbn [previewable]. intros Hoa.
  unfold preview_lines, open_access_flag. rewrite <- !dict_get_field_or.
  unfold preview, bind. cbn [py_get ret].
  destruct (dict_get d (str "open_access") (JDict [])) as [| | | | |oa]; try discriminate.
  cbn [py_get ret]. rewrite <- dict_get_field_or.
  now rewrite !print_add_lines, !add_lines_app.
Qed.

Lemma for_enumerate_ok l :
  forall i w,
    forallb previewable l = true ->
    for_enumerate preview l i w = (Ok tt, add_lines w (previews_from i l)).
Proof.
  induction l as [|x l IH]; intros i w Hl.
  - cbn. now rewrite add_lines_nil.
  - cbn [forallb] in Hl. apply andb_true_iff in Hl as [Hx Hl].
    cbn [for_enumerate previews_from]. unfold bind. rewrite (preview_ok i x w Hx).
    rewrite (IH (i + 1)%Z _ Hl). now rewrite add_lines_app.
Qed.

Lemma print_summary_ok datasets w :
  forallb previewable (firstn 5 datasets) = true ->
  print_summary datasets w
  = (Ok tt, add_lines w (summary_head (List.length datasets)
                         ++ match datasets with
                            | [] => []
                            | _ => sample_line :: previews_from 1 (firstn 5 datasets)
                            end)).
Proof.
  intros Hl. unfold print_summary, bind. rewrite !print_add_lines, !add_lines_app.
  destruct datasets as [|x l].
  - reflexivity.
  - rewrite print_add_lines, add_lines_app.
    change (slice_to (x :: l) 5) with (firstn 5 (x :: l)).
    rewrite (for_enumerate_ok _ 1%Z _ Hl), add_lines_app. reflexivity.
Qed.











(** ** The codec *)

Lemma utf8_decode_cons (b0 : N) (r0 : list N) :
  utf8_decode (b0 :: r0)
  = (if b0 <? 128 then option_map (cons b0) (utf8_decode r0)
     else if b0 <? 194 then None
     else if b0 <? 224 then
       match r0 with
       | b1 :: r1 =>
           if is_continuation b1
           then option_map (cons ((b0 - 192) * 64 + (b1 - 128))) (utf8_decode r1)
           else None
       | _ => None
       end
     else if b0 <? 240 then
       match r0 with
       | b1 :: b2 :: r2 =>
           let c := (b0 - 224) * 4096 + (b1 - 128) * 64 + (b2 - 128) in
           if is_continuation b1 && is_continuation b2
              && (2048 <=? c) && negb (is_surrogate c)
           then option_map (cons c) (utf8_decode r2)
           else None
       | _ => None
       end
     else if b0 <? 245 then
       match r0 with
       | b1 :: b2 :: b3 :: r3 =>
           let c := (b0 - 240) * 262144 + (b1 - 128) * 4096
                    + (b2 - 128) * 64 + (b3 - 128) in
           if is_continuation b1 && is_continuation b2 && is_continuation b3
              && (65536 <=? c) && (c <? 1114112)
           then option_map (cons c) (utf8_decode r3)
           else None
       | _ => None
       end
     else None)%N.
Proof. reflexivity. Qed.

Lemma some_eq (A : Type) (a b : A) : Some a = Some b -> a = b.
Proof. congruence. Qed.

Lemma utf8_decode_encode_char (c : N) (bs rest : list N) :
  utf8_encode_char c = Some bs ->
  utf8_decode (bs ++ rest) = option_map (cons c) (utf8_decode rest).
Proof.
  unfold utf8_encode_char, is_surrogate.
  destruct (N.ltb_spec c 128).
  { intros Hbs. apply some_eq in Hbs. subst bs.
    cbn [app]. rewrite utf8_decode_cons. decide_tests. reflexivity. }
  destruct (N.ltb_spec c 2048).
  { intros Hbs. apply some_eq in Hbs. subst bs.
    cbn [app]. rewrite utf8_decode_cons. unfold is_continuation.
    replace ((192 + c / 64 - 192) * 64 + (128 + c mod 64 - 128))%N with c by nlia.
    decide_tests. cbn [andb]. reflexivity. }
  destruct (N.ltb_spec c 65536).
  { destruct (N.leb_spec 55296 c), (N.leb_spec c 57343); cbn [andb]; try discriminate;
      intros Hbs; apply some_eq in Hbs; subst bs;
      cbn [app]; rewrite utf8_decode_cons;
      unfold is_continuation, is_surrogate; cbv zeta;
      replace ((224 + c / 4096 - 224) * 4096 + (128 + (c / 64) mod 64 - 128) * 64
               + (128 + c mod 64 - 128))%N with c by nlia;
      decide_tests; cbn [andb negb]; reflexivity. }
  destruct (N.ltb_spec c 1114112); [|discriminate].
  intros Hbs. apply some_eq in Hbs. subst bs.
  cbn [app]. rewrite utf8_decode_cons. unfold is_continuation. cbv zeta.
  replace ((240 + c / 262144 - 240) * 262144 + (128 + (c / 4096) mod 64 - 128) * 4096
           + (128 + (c / 64) mod 64 - 128) * 64 + (128 + c mod 64 - 128))%N with c by nlia.
  decide_tests. cbn [andb]. reflexivity.
Qed.

Lemma utf8_decode_encode (s : pystr) (bs : list N) :
  utf8_encode s = Some bs -> utf8_decode bs = Some s.
Proof.
  revert bs. induction s as [|c s IH]; intros bs.
  - intros [= <-]. reflexivity.
  - cbn [utf8_encode].
    destruct (utf8_encode_char c) as [cb|] eqn:Hc; [|discriminate].
    destruct (utf8_encode s) as [rest|]; [|discriminate].
    intros [= <-]. rewrite (utf8_decode_encode_char c cb rest Hc), (IH rest eq_refl).
    reflexivity.
Qed.

Lemma utf8_encode_char_scalar (c : N) :
  is_scalar c = true -> exists bs, utf8_encode_char c = Some bs.
Proof.
  unfold is_scalar, utf8_encode_char. intros H. apply andb_true_iff in H as [Hlt Hs].
  apply negb_true_iff in Hs. rewrite Hs, Hlt.
  destruct (c <? 128)%N, (c <? 2048)%N, (c <? 65536)%N; eauto.
Qed.

Lemma utf8_encode_scalar (s : pystr) :
  forallb is_scalar s = true -> exists bs, utf8_encode s = Some bs.
Proof.
  induction s as [|c s IH]; intros H; [now exists []|].
  cbn [forallb] in H. apply andb_true_iff in H as [Hc Hs].
  destruct (utf8_encode_char_scalar c Hc) as [cb Hcb]. destruct (IH Hs) as [rest Hrest].
  exists (cb ++ rest). cbn [utf8_encode]. now rewrite Hcb, Hrest.
Qed.

(** ** The scanner *)

(** Induction on a value, with the property at hand for the items of a
    list and the values of a dict. *)

Section JsonInd.

Variable P : json -> Prop.
Hypothesis HNull : P JNull.
Hypothesis HBool : forall b, P (JBool b).
Hypothesis HInt : forall n, P (JInt n).
Hypothesis HStr : forall s, P (JStr s).
Hypothesis HList : forall l, Forall P l -> P (JList l).
Hypothesis HDict : forall d, Forall (fun kv => P (snd kv)) d -> P (JDict d).

Fixpoint json_ind (v : json) : P v :=
  match v with
  | JNull => HNull
  | JBool b => HBool b
  | JInt n => HInt n
  | JStr s => HStr s
  | JList l =>
      HList l ((fix all (l : list json) : Forall P l :=
                  match l with
                  | [] => @Forall_nil json P
                  | x :: l' => @Forall_cons json P x l' (json_ind x) (all l')
                  end) l)
  | JDict d =>
      HDict d ((fix all (d : list (pystr * json)) : Forall (fun kv => P (snd kv)) d :=
                  match d with
                  | [] => @Forall_nil _ (fun kv => P (snd kv))
                  | kv :: d' =>
                      @Forall_cons _ (fun kv => P (snd kv)) kv d' (json_ind (snd kv)) (all d')
                  end) d)
  end.

End JsonInd.

(** *** White space and the first character of a value *)

Lemma skip_ws_spaces (n : nat) (r : pystr) : skip_ws (repeat 32%N n ++ r) = skip_ws r.
Proof. induction n as [|n IH]; [reflexivity|exact IH]. Qed.

Lemma skip_ws_newline_indent (indent level : nat) (r : pystr) :
  skip_ws (newline_indent indent level ++ r) = skip_ws r.
Proof. unfold newline_indent. cbn [app skip_ws is_ws N.eqb orb Pos.eqb]. apply skip_ws_spaces. Qed.

Lemma value_start_not_ws (c : N) : value_start c = true -> is_ws c = false.
Proof.
  unfold value_start, is_ws, is_digit. intros H.
  destruct (N.eqb_spec c 32), (N.eqb_spec c 9), (N.eqb_spec c 10), (N.eqb_spec c 13);
    subst; try discriminate; reflexivity.
Qed.

Lemma skip_ws_value (c : N) (r : pystr) :
  value_start c = true -> skip_ws (c :: r) = c :: r.
Proof. intros H. cbn [skip_ws]. now rewrite (value_start_not_ws c H). Qed.

(** *** Strings *)

Lemma scanstring_cons (c : N) (s1 : pystr) :
  scanstring (c :: s1)
  = if (c =? 34)%N then Some ([], s1)
    else if (c =? 92)%N then
      match s1 with
      | [] => None
      | e :: s2 =>
          if (e =? 117)%N then
            match s2 with
            | h1 :: h2 :: h3 :: h4 :: s3 =>
                match hex4 h1 h2 h3 h4 with
                | None => None
                | Some uni =>
                    match s3 with
                    | a :: b :: l1 :: l2 :: l3 :: l4 :: s4 =>
                        if is_high_surrogate uni && (a =? 92)%N && (b =? 117)%N then
                          match hex4 l1 l2 l3 l4 with
                          | None => None
                          | Some uni2 =>
                              if is_low_surrogate uni2
                              then scan_more (65536 + ((uni - 55296) * 1024 + (uni2 - 56320)))%N
                                     (scanstring s4)
                              else scan_more uni (scanstring s3)
                          end
                        else scan_more uni (scanstring s3)
                    | a :: b :: _ =>
                        if is_high_surrogate uni && (a =? 92)%N && (b =? 117)%N then None
                        else scan_more uni (scanstring s3)
                    | _ => scan_more uni (scanstring s3)
                    end
                end
            | _ => None
            end
          else
            match unescape e with
            | Some c' => scan_more c' (scanstring s2)
            | None => None
            end
      end
    else if (c <? 32)%N then None
    else scan_more c (scanstring s1).
Proof. reflexivity. Qed.

Lemma hex_val_digit (n : N) : (n < 16)%N -> hex_val (hex_digit n) = Some n.
Proof.
  intros Hn. unfold hex_val, hex_digit, is_digit.
  destruct (N.ltb_spec n 10).
  - destruct (N.leb_spec 48 (48 + n)), (N.leb_spec (48 + n) 57); try lia.
    cbn [andb]. f_equal. lia.
  - destruct (N.leb_spec 48 (87 + n)), (N.leb_spec (87 + n) 57); try lia.
    cbn [andb].
    destruct (N.leb_spec 97 (87 + n)), (N.leb_spec (87 + n) 102); try lia.
    cbn [andb]. f_equal. lia.
Qed.

Lemma hex4_escape (c : N) :
  (c < 65536)%N ->
  hex4 (hex_digit (c / 4096 mod 16)) (hex_digit (c / 256 mod 16))
       (hex_digit (c / 16 mod 16)) (hex_digit (c mod 16)) = Some c.
Proof.
  intros Hc. unfold hex4. rewrite !hex_val_digit by nlia. f_equal. nlia.
Qed.

Lemma scanstring_escape_u (c : N) (r : pystr) :
  (c < 32)%N ->
  scanstring (escape_u c ++ r) = scan_more c (scanstring r).
Proof.
  intros Hc. unfold escape_u. cbn [app]. rewrite scanstring_cons.
  change (92 =? 34)%N with false. change (92 =? 92)%N with true.
  change (117 =? 117)%N with true. cbv iota. rewrite hex4_escape by lia.
  assert (Hhigh : is_high_surrogate c = false).
  { unfold is_high_surrogate. destruct (N.leb_spec 55296 c); [lia|reflexivity]. }
  rewrite Hhigh. cbn [andb].
  destruct r as [|a [|b [|l1 [|l2 [|l3 [|l4 s4]]]]]]; reflexivity.
Qed.

Lemma scanstring_escape_char (c : N) (r : pystr) :
  scanstring (escape_char false c ++ r) = scan_more c (scanstring r).
Proof.
  unfold escape_char. cbn [andb].
  destruct (N.eqb_spec c 34) as [->|H34]; [reflexivity|].
  destruct (N.eqb_spec c 92) as [->|H92]; [reflexivity|].
  destruct (N.eqb_spec c 10) as [->|H10]; [reflexivity|].
  destruct (N.eqb_spec c 13) as [->|H13]; [reflexivity|].
  destruct (N.eqb_spec c 9) as [->|H9]; [reflexivity|].
  destruct (N.eqb_spec c 8) as [->|H8]; [reflexivity|].
  destruct (N.eqb_spec c 12) as [->|H12]; [reflexivity|].
  destruct (N.ltb_spec c 32) as [Hlt|Hge].
  - now apply scanstring_escape_u.
  - cbn [app]. rewrite scanstring_cons.
    destruct (N.eqb_spec c 34); [contradiction|].
    destruct (N.eqb_spec c 92); [contradiction|].
    destruct (N.ltb_spec c 32); [lia|]. reflexivity.
Qed.

Lemma scanstring_escaped (s rest : pystr) :
  scanstring (flat_map (escape_char false) s ++ 34%N :: rest) = Some (s, rest).
Proof.
  induction s as [|c s IH]; [reflexivity|].
  cbn [flat_map]. rewrite <- app_assoc, scanstring_escape_char, IH. reflexivity.
Qed.

(** *** Numbers *)

Lemma digits_value_snoc (ds : pystr) (d : N) :
  digits_value (ds ++ [d]) = (10 * digits_value ds + (d - 48))%N.
Proof. unfold digits_value. now rewrite fold_left_app. Qed.

Lemma digits_fuel_spec (fuel : nat) :
  forall n acc,
    (n < 10 ^ N.of_nat (S fuel))%N ->
    exists d tl,
      digits_fuel (S fuel) n acc = (d :: tl) ++ acc
      /\ forallb is_digit (d :: tl) = true
      /\ digits_value (d :: tl) = n
      /\ (n = 0%N -> d :: tl = [48%N])
      /\ (n <> 0%N -> d <> 48%N).
Proof.
  induction fuel as [|fuel IH]; intros n acc Hn.
  - change (10 ^ N.of_nat 1)%N with 10%N in Hn.
    cbn [digits_fuel]. destruct (N.ltb_spec n 10) as [_|]; [|lia].
    exists (48 + n)%N, []. splits.
    + reflexivity.
    + cbn [forallb]. unfold is_digit.
      destruct (N.leb_spec 48 (48 + n)), (N.leb_spec (48 + n) 57); first [lia | reflexivity].
    + unfold digits_value. cbn [fold_left]. lia.
    + intros ->. reflexivity.
    + lia.
  - rewrite Nat2N.inj_succ, N.pow_succ_r' in Hn.
    change (digits_fuel (S (S fuel)) n acc)
      with (if (n <? 10)%N then (48 + n)%N :: acc
            else digits_fuel (S fuel) (n / 10)%N ((48 + n mod 10)%N :: acc)).
    destruct (N.ltb_spec n 10) as [Hlt|Hge].
    + exists (48 + n)%N, []. splits.
      * reflexivity.
      * cbn [forallb]. unfold is_digit.
        destruct (N.leb_spec 48 (48 + n)), (N.leb_spec (48 + n) 57); first [lia | reflexivity].
      * unfold digits_value. cbn [fold_left]. lia.
      * intros ->. reflexivity.
      * lia.
    + assert (Hq : (n / 10 < 10 ^ N.of_nat (S fuel))%N).
      { apply N.Div0.div_lt_upper_bound. lia. }
      destruct (IH (n / 10)%N ((48 + n mod 10)%N :: acc) Hq)
        as (d & tl & Hrun & Hdig & Hval & _ & Hlead).
      exists d, (tl ++ [(48 + n mod 10)%N]). splits.
      * rewrite Hrun. cbn [app]. now rewrite <- app_assoc.
      * change (d :: tl ++ [(48 + n mod 10)%N]) with ((d :: tl) ++ [(48 + n mod 10)%N]).
        rewrite forallb_app, Hdig. cbn [forallb andb]. unfold is_digit.
        destruct (N.leb_spec 48 (48 + n mod 10)), (N.leb_spec (48 + n mod 10) 57);
          first [nlia | reflexivity].
      * change (d :: tl ++ [(48 + n mod 10)%N]) with ((d :: tl) ++ [(48 + n mod 10)%N]).
        rewrite digits_value_snoc, Hval. nlia.
      * lia.
      * intros _. apply Hlead. nlia.
Qed.

Lemma digits_spec (n : N) :
  exists d tl,
    digits n = d :: tl
    /\ forallb is_digit (d :: tl) = true
    /\ digits_value (d :: tl) = n
    /\ (n = 0%N -> d :: tl = [48%N])
    /\ (n <> 0%N -> d <> 48%N).
Proof.
  unfold digits.
  destruct (digits_fuel_spec (N.to_nat (N.log2 n)) n []) as (d & tl & Hrun & H).
  - rewrite Nat2N.inj_succ, N2Nat.id.
    destruct (N.eq_dec n 0) as [->|Hn0]; [reflexivity|].
    apply N.lt_le_trans with (2 ^ N.succ (N.log2 n))%N.
    + apply N.log2_spec. lia.
    + apply N.pow_le_mono_l. lia.
  - exists d, tl. rewrite Hrun, app_nil_r. auto.
Qed.

Lemma scan_digits_app (ds rest : pystr) :
  forall acc,
    forallb is_digit ds = true ->
    scan_digits (ds ++ rest) acc
    = scan_digits rest (fold_left (fun a d => (10 * a + (d - 48))%N) ds acc).
Proof.
  induction ds as [|d ds IH]; intros acc Hds; [reflexivity|].
  cbn [forallb] in Hds. apply andb_true_iff in Hds as [Hd Hds].
  cbn [app scan_digits fold_left]. rewrite Hd. now apply IH.
Qed.

Lemma scan_digits_end (rest : pystr) (acc : N) :
  value_end rest = true -> scan_digits rest acc = (acc, rest).
Proof.
  destruct rest as [|c r]; [reflexivity|]. cbn [value_end scan_digits]. intros H.
  apply orb_true_iff in H as [H|H]; apply N.eqb_eq in H; subst; reflexivity.
Qed.

Lemma not_float_end (rest : pystr) :
  value_end rest = true -> starts_frac rest || starts_exp rest = false.
Proof.
  destruct rest as [|c [|d r]]; try reflexivity; cbn [value_end]; intros H;
    apply orb_true_iff in H as [H|H]; apply N.eqb_eq in H; subst; reflexivity.
Qed.

Lemma scan_int_digits (n : N) (rest : pystr) :
  value_end rest = true -> scan_int (digits n ++ rest) = Some (n, rest).
Proof.
  intros Hend. destruct (digits_spec n) as (d & tl & -> & Hdig & Hval & Hzero & Hlead).
  cbn [app scan_int]. destruct (N.eq_dec n 0) as [->|Hn0].
  - injection (Hzero eq_refl) as -> ->. reflexivity.
  - destruct (N.eqb_spec d 48) as [Hd|_]; [now apply Hlead in Hd|].
    cbn [forallb] in Hdig. apply andb_true_iff in Hdig as [Hd Htl]. rewrite Hd.
    rewrite (scan_digits_app tl rest _ Htl), (scan_digits_end rest _ Hend).
    unfold digits_value in Hval. cbn [fold_left] in Hval.
    change (10 * 0 + (d - 48))%N with (d - 48)%N in Hval. now rewrite Hval.
Qed.

Lemma parse_number_repr (z : Z) (rest : pystr) :
  value_end rest = true -> parse_number (repr_int z ++ rest) = Some (JInt z, rest).
Proof.
  intros Hend. unfold repr_int, parse_number. destruct (Z.ltb_spec z 0) as [Hneg|Hpos].
  - cbn [app]. change (45 =? 45)%N with true. cbv iota.
    rewrite (scan_int_digits _ rest Hend), (not_float_end rest Hend).
    replace (- Z.of_N (Z.to_N (- z)))%Z with z by lia. reflexivity.
  - destruct (digits_spec (Z.to_N z)) as (d & tl & Hds & Hdig & _).
    assert (Hd : (d =? 45)%N = false).
    { cbn [forallb] in Hdig. apply andb_true_iff in Hdig as [Hd _]. unfold is_digit in Hd.
      destruct (N.eqb_spec d 45) as [->|]; [discriminate|reflexivity]. }
    pose proof (scan_int_digits (Z.to_N z) rest Hend) as Hscan.
    rewrite Hds in *. cbn [app] in *. rewrite Hd, Hscan, (not_float_end rest Hend).
    replace (Z.of_N (Z.to_N z)) with z by lia. reflexivity.
Qed.

(** *** Dicts *)

Lemma existsb_pystr_eqb_In (k : pystr) (l : list pystr) :
  existsb (pystr_eqb k) l = true <-> In k l.
Proof.
  rewrite existsb_exists. split.
  - intros (x & Hx & Heq). apply pystr_eqb_eq in Heq. now subst.
  - intros H. exists k. split; [exact H|]. now apply pystr_eqb_eq.
Qed.

Lemma nodupb_NoDup (l : list pystr) : nodupb l = true -> NoDup l.
Proof.
  induction l as [|x l IH]; intros H; [constructor|].
  cbn [nodupb] in H. apply andb_true_iff in H as [Hx Hl]. constructor.
  - intros Hin. apply existsb_pystr_eqb_In in Hin. rewrite Hin in Hx. discriminate.
  - now apply IH.
Qed.

Lemma dict_set_fresh (d : list (pystr * json)) (k : pystr) (v : json) :
  ~ In k (map fst d) -> dict_set d k v = d ++ [(k, v)].
Proof.
  induction d as [|[k0 v0] d IH]; intros Hk; [reflexivity|].
  cbn [dict_set app]. cbn [map fst In] in Hk.
  destruct (pystr_eqb k0 k) eqn:Heq.
  - apply pystr_eqb_eq in Heq. tauto.
  - rewrite IH by tauto. reflexivity.
Qed.

Lemma fold_dict_set_fresh (l : list (pystr * json)) :
  forall acc,
    NoDup (map fst (acc ++ l)) ->
    fold_left (fun d kv => dict_set d (fst kv) (snd kv)) l acc = acc ++ l.
Proof.
  induction l as [|[k v] l IH]; intros acc Hnd.
  - now rewrite app_nil_r.
  - cbn [fold_left fst snd]. rewrite dict_set_fresh.
    + rewrite IH; rewrite <- app_assoc; [reflexivity|exact Hnd].
    + rewrite map_app in Hnd. cbn [map fst] in Hnd.
      apply NoDup_remove_2 in Hnd. intros Hin. apply Hnd, in_or_app. now left.
Qed.

Lemma dict_of_pairs_nodup (d : list (pystr * json)) :
  nodupb (map fst d) = true -> dict_of_pairs d = d.
Proof.
  intros H. unfold dict_of_pairs. now rewrite fold_dict_set_fresh by (apply nodupb_NoDup, H).
Qed.

(** *** The scanner on serialised values *)

Lemma parse_value_S (fuel' : nat) (s : pystr) :
  parse_value (S fuel') s
  = match s with
    | [] => None
    | c :: s' =>
        if (c =? 34)%N then
          match scanstring s' with
          | Some (t, rest) => Some (JStr t, rest)
          | None => None
          end
        else if (c =? 123)%N then
          match skip_ws s' with
          | c1 :: r =>
              if (c1 =? 125)%N then Some (JDict [], r)
              else if (c1 =? 34)%N then parse_members fuel' [] r
              else None
          | [] => None
          end
        else if (c =? 91)%N then
          match skip_ws s' with
          | c1 :: r =>
              if (c1 =? 93)%N then Some (JList [], r)
              else parse_elements fuel' [] (c1 :: r)
          | [] => None
          end
        else
          match starts_with (str "null") s, starts_with (str "true") s,
                starts_with (str "false") s with
          | Some rest, _, _ => Some (JNull, rest)
          | _, Some rest, _ => Some (JBool true, rest)
          | _, _, Some rest => Some (JBool false, rest)
          | None, None, None => parse_number s
          end
    end.
Proof. reflexivity. Qed.

Lemma parse_elements_S (fuel' : nat) (acc : list json) (s : pystr) :
  parse_elements (S fuel') acc s
  = match parse_value fuel' s with
    | None => None
    | Some (v, rest) =>
        match skip_ws rest with
        | c :: r =>
            if (c =? 93)%N then Some (JList (rev (v :: acc)), r)
            else if (c =? 44)%N then parse_elements fuel' (v :: acc) (skip_ws r)
            else None
        | [] => None
        end
    end.
Proof. reflexivity. Qed.

Lemma parse_members_S (fuel' : nat) (acc : list (pystr * json)) (s : pystr) :
  parse_members (S fuel') acc s
  = match scanstring s with
    | None => None
    | Some (key, rest) =>
        match skip_ws rest with
        | c :: r =>
            if (c =? 58)%N then
              match parse_value fuel' (skip_ws r) with
              | None => None
              | Some (v, rest') =>
                  match skip_ws rest' with
                  | c' :: r' =>
                      if (c' =? 125)%N
                      then Some (JDict (dict_of_pairs (rev ((key, v) :: acc))), r')
                      else if (c' =? 44)%N then
                        match skip_ws r' with
                        | q :: r'' =>
                            if (q =? 34)%N then parse_members fuel' ((key, v) :: acc) r''
                            else None
                        | [] => None
                        end
                      else None
                  | [] => None
                  end
              end
            else None
        | [] => None
        end
    end.
Proof. reflexivity. Qed.

Lemma dumps_head (ensure_ascii : bool) (indent : nat) (v : json) (level : nat) :
  exists c tl, dumps_at ensure_ascii indent level v = c :: tl /\ value_start c = true.
Proof.
  destruct v as [|[|]|n|s|[|x l]|[|kv d]]; try (eexists _, _; split; reflexivity).
  unfold dumps_at, repr_int. destruct (Z.ltb_spec n 0).
  - eexists _, _; split; reflexivity.
  - destruct (digits_spec (Z.to_N n)) as (d & tl & -> & Hdig & _).
    exists d, tl. split; [reflexivity|].
    cbn [forallb] in Hdig. apply andb_true_iff in Hdig as [Hd _].
    unfold value_start. rewrite Hd. now rewrite !orb_true_r.
Qed.

Lemma repr_int_head (z : Z) :
  exists c tl, repr_int z = c :: tl /\ ((c =? 45)%N || is_digit c) = true.
Proof.
  unfold repr_int. destruct (Z.ltb_spec z 0).
  - eexists _, _; split; reflexivity.
  - destruct (digits_spec (Z.to_N z)) as (d & tl & -> & Hdig & _).
    exists d, tl. split; [reflexivity|].
    cbn [forallb] in Hdig. apply andb_true_iff in Hdig as [-> _]. apply orb_true_r.
Qed.

Lemma parse_value_number (fuel' : nat) (c : N) (tl : pystr) :
  ((c =? 45)%N || is_digit c) = true ->
  parse_value (S fuel') (c :: tl) = parse_number (c :: tl).
Proof.
  intros Hc. rewrite parse_value_S. unfold is_digit in Hc.
  destruct (N.eqb_spec c 34) as [->|_]; [discriminate|].
  destruct (N.eqb_spec c 123) as [->|_]; [discriminate|].
  destruct (N.eqb_spec c 91) as [->|_]; [discriminate|].
  change (str "null") with [110; 117; 108; 108]%N.
  change (str "true") with [116; 114; 117; 101]%N.
  change (str "false") with [102; 97; 108; 115; 101]%N.
  cbn [starts_with].
  destruct (N.eqb_spec 110 c) as [<-|_]; [discriminate|].
  destruct (N.eqb_spec 116 c) as [<-|_]; [discriminate|].
  destruct (N.eqb_spec 102 c) as [<-|_]; [discriminate|].
  reflexivity.
Qed.

Lemma parse_value_int (fuel' : nat) (z : Z) (rest : pystr) :
  value_end rest = true ->
  parse_value (S fuel') (repr_int z ++ rest) = Some (JInt z, rest).
Proof.
  intros Hend. rewrite <- (parse_number_repr z rest Hend).
  destruct (repr_int_head z) as (c & tl & -> & Hc). now apply parse_value_number.
Qed.

Lemma parse_value_str (fuel' : nat) (s rest : pystr) :
  parse_value (S fuel') (encode_basestring false s ++ rest) = Some (JStr s, rest).
Proof.
  unfold encode_basestring. cbn [app]. rewrite parse_value_S.
  change (34 =? 34)%N with true. cbv iota.
  rewrite <- app_assoc. cbn [app]. now rewrite scanstring_escaped.
Qed.

Lemma value_start_not_close (c : N) :
  value_start c = true -> (c =? 93)%N = false /\ (c =? 125)%N = false.
Proof.
  intros H. split.
  - destruct (N.eqb_spec c 93) as [->|]; [discriminate|reflexivity].
  - destruct (N.eqb_spec c 125) as [->|]; [discriminate|reflexivity].
Qed.

Lemma join_cons2 (sep x y : pystr) (l : list pystr) :
  join sep (x :: y :: l) = x ++ sep ++ join sep (y :: l).
Proof. reflexivity. Qed.

Lemma comma_app (r : pystr) : str "," ++ r = 44%N :: r.
Proof. reflexivity. Qed.

Section RoundTrip.

Variable indent : nat.

Local Abbreviation D := (dumps_at false indent).

Lemma join_head (level : nat) (x : json) (l : list json) (r : pystr) :
  exists c tl,
    join (str "," ++ newline_indent indent level) (map (D level) (x :: l)) ++ r = c :: tl
    /\ value_start c = true.
Proof.
  destruct (dumps_head false indent x level) as (c & tl & Hx & Hc).
  destruct l as [|y l]; cbn [map]; [cbn [join]|rewrite join_cons2];
    rewrite Hx; eexists _, _; split; try reflexivity; exact Hc.
Qed.

Lemma parse_elements_join (level : nat) (l : list json) :
  Forall (parses indent) l ->
  forall x acc fuel rest,
    parses indent x ->
    (fold_right (fun y n => S (size y + n)) 0 (x :: l) <= fuel)%nat ->
    parse_elements fuel acc
      (join (str "," ++ newline_indent indent (S level)) (map (D (S level)) (x :: l))
       ++ newline_indent indent level ++ 93%N :: rest)
    = Some (JList (rev acc ++ x :: l), rest).
Proof.
  induction 1 as [|y l Hy Hl IH]; intros x acc fuel rest Hx Hfuel.
  - cbn [fold_right] in Hfuel. destruct fuel as [|fuel]; [lia|].
    cbn [map join]. rewrite parse_elements_S, Hx by (reflexivity || lia).
    rewrite skip_ws_newline_indent. cbn [skip_ws is_ws N.eqb Pos.eqb orb].
    cbn [rev]. reflexivity.
  - cbn [fold_right] in Hfuel. destruct fuel as [|fuel]; [lia|].
    cbn [map]. rewrite join_cons2, <- !app_assoc.
    rewrite parse_elements_S, Hx by (reflexivity || lia).
    rewrite comma_app. cbn [skip_ws is_ws N.eqb Pos.eqb orb].
    rewrite skip_ws_newline_indent.
    destruct (join_head (S level) y l (newline_indent indent level ++ 93%N :: rest))
      as (c & tl & Hjoin & Hc).
    change (map (D (S level)) (y :: l)) with (D (S level) y :: map (D (S level)) l) in Hjoin.
    rewrite Hjoin, (skip_ws_value c tl Hc), <- Hjoin.
    change (D (S level) y :: map (D (S level)) l) with (map (D (S level)) (y :: l)).
    rewrite (IH y (x :: acc) fuel rest Hy) by (cbn [fold_right]; lia).
    cbn [rev]. now rewrite <- app_assoc.
Qed.

Lemma join_entries (level : nat) (d : list (pystr * json)) :
  forall k w,
    join (str "," ++ newline_indent indent level) (map (entry indent level) ((k, w) :: d))
    = 34%N :: flat_map (escape_char false) k
      ++ 34%N :: 58%N :: 32%N :: D level w ++ members_rest indent level d.
Proof.
  induction d as [|[k2 w2] d IH]; intros k w.
  - cbn [map join members_rest entry]. unfold encode_basestring.
    cbn [app]. rewrite <- !app_assoc. cbn [app]. now rewrite app_nil_r.
  - cbn [map]. rewrite join_cons2.
    change (entry indent level (k2, w2) :: map (entry indent level) d)
      with (map (entry indent level) ((k2, w2) :: d)).
    rewrite IH. cbn [members_rest entry]. unfold encode_basestring.
    cbn [app]. rewrite <- !app_assoc. cbn [app]. reflexivity.
Qed.

Lemma parse_members_join (level : nat) (d : list (pystr * json)) :
  Forall (fun kv => parses indent (snd kv)) d ->
  forall k w acc fuel rest,
    parses indent w ->
    (fold_right (fun kv n => let '(_, y) := kv in S (size y + n)) 0 ((k, w) :: d) <= fuel)%nat ->
    parse_members fuel acc
      (flat_map (escape_char false) k
       ++ 34%N :: 58%N :: 32%N :: D (S level) w ++ members_rest indent (S level) d
       ++ newline_indent indent level ++ 125%N :: rest)
    = Some (JDict (dict_of_pairs (rev acc ++ (k, w) :: d)), rest).
Proof.
  induction 1 as [|[k2 w2] d Hw2 Hd IH]; intros k w acc fuel rest Hw Hfuel;
    cbn [fold_right] in Hfuel; (destruct fuel as [|fuel]; [lia|]);
    rewrite parse_members_S, scanstring_escaped;
    cbn [skip_ws is_ws N.eqb Pos.eqb orb];
    destruct (dumps_head false indent w (S level)) as (c & tl & Hhead & Hc);
    rewrite Hhead; cbn [app]; rewrite (skip_ws_value c _ Hc);
    change (c :: tl ++ ?r) with ((c :: tl) ++ r); rewrite <- Hhead;
    cbn [members_rest]; norm_app;
    rewrite Hw by (reflexivity || lia).
  - rewrite skip_ws_newline_indent. cbn [skip_ws is_ws N.eqb Pos.eqb orb].
    cbn [rev]. reflexivity.
  - cbn [skip_ws is_ws N.eqb Pos.eqb orb].
    rewrite skip_ws_newline_indent. cbn [skip_ws is_ws N.eqb Pos.eqb orb].
    cbn [snd] in Hw2.
    rewrite (IH k2 w2 ((k, w) :: acc) fuel rest Hw2) by (cbn [fold_right]; lia).
    cbn [rev]. now rewrite <- app_assoc.
Qed.

Lemma dumps_at_list (ensure_ascii : bool) (level : nat) (x : json) (l : list json) :
  dumps_at ensure_ascii indent level (JList (x :: l))
  = str "[" ++ newline_indent indent (S level)
    ++ join (str "," ++ newline_indent indent (S level))
            (map (dumps_at ensure_ascii indent (S level)) (x :: l))
    ++ newline_indent indent level ++ str "]".
Proof. reflexivity. Qed.

Lemma dumps_at_dict (level : nat) (kv : pystr * json) (d : list (pystr * json)) :
  dumps_at false indent level (JDict (kv :: d))
  = str "{" ++ newline_indent indent (S level)
    ++ join (str "," ++ newline_indent indent (S level)) (map (entry indent (S level)) (kv :: d))
    ++ newline_indent indent level ++ str "}".
Proof. reflexivity. Qed.

Lemma Forall_parses (l : list json) :
  Forall (fun v => wf_json v = true -> parses indent v) l ->
  forallb wf_json l = true ->
  Forall (parses indent) l.
Proof.
  induction 1 as [|x l Hx _ IH]; intros Hwf; constructor;
    cbn [forallb] in Hwf; apply andb_true_iff in Hwf as [Hx' Hl]; auto.
Qed.

Lemma Forall_parses_members (d : list (pystr * json)) :
  Forall (fun kv => wf_json (snd kv) = true -> parses indent (snd kv)) d ->
  forallb (fun kv => let '(_, w) := kv in wf_json w) d = true ->
  Forall (fun kv => parses indent (snd kv)) d.
Proof.
  induction 1 as [|[k w] d Hx _ IH]; intros Hwf; constructor;
    cbn [forallb] in Hwf; apply andb_true_iff in Hwf as [Hx' Hl]; auto.
Qed.

(** The scanner reads a serialised value back, whatever follows it. *)
Theorem parse_dumps (v : json) : wf_json v = true -> parses indent v.
Proof.
  induction v as [|b|n|s|l IH|d IH] using json_ind; intros Hwf fuel level rest Hfuel Hend;
    (destruct fuel as [|fuel]; [cbn [size] in Hfuel; lia|]).
  - reflexivity.
  - destruct b; reflexivity.
  - now apply parse_value_int.
  - apply parse_value_str.
  - destruct l as [|x l]; [reflexivity|].
    cbn [wf_json] in Hwf. pose proof (Forall_parses _ IH Hwf) as Hall.
    inversion Hall as [|x' l' Hx Hl]; subst.
    rewrite dumps_at_list. change (str "[") with [91%N]. change (str "]") with [93%N].
    norm_app. rewrite parse_value_S.
    cbn [N.eqb Pos.eqb]. rewrite skip_ws_newline_indent.
    destruct (join_head (S level) x l (newline_indent indent level ++ 93%N :: rest))
      as (c & tl & Hjoin & Hc).
    rewrite Hjoin, (skip_ws_value c tl Hc).
    destruct (value_start_not_close c Hc) as [-> _]. rewrite <- Hjoin.
    apply parse_elements_join; auto. cbn [size] in Hfuel. lia.
  - destruct d as [|[k w] d]; [reflexivity|].
    cbn [wf_json] in Hwf. apply andb_true_iff in Hwf as [Hkeys Hwf].
    pose proof (Forall_parses_members _ IH Hwf) as Hall.
    inversion Hall as [|kv' d' Hw Hd]; subst. cbn [snd] in Hw.
    rewrite dumps_at_dict, join_entries.
    change (str "{") with [123%N]. change (str "}") with [125%N].
    norm_app. rewrite parse_value_S.
    cbn [N.eqb Pos.eqb]. rewrite skip_ws_newline_indent.
    cbn [skip_ws is_ws N.eqb Pos.eqb orb].
    rewrite (parse_members_join level d Hd k w [] fuel rest Hw)
      by (cbn [size] in Hfuel; lia).
    cbn [rev app]. now rewrite (dict_of_pairs_nodup _ Hkeys).
Qed.

End RoundTrip.

(** *** The scanner on other texts *)

Example json_loads_spaces :
  json_loads (quoted " [ 1 , {'a' : [ ] } ] ")
  = Some (JList [JInt 1; JDict [(str "a", JList [])]]).
Proof. reflexivity. Qed.

Example json_loads_repeated_key :
  json_loads (quoted "{'a': 1, 'b': 2, 'a': 3}")
  = Some (JDict [(str "a", JInt 3); (str "b", JInt 2)]).
Proof. reflexivity. Qed.

Example json_loads_surrogate_pair :
  json_loads (quoted "'\ud83d\ude00 \ud83d\u0041'")
  = Some (JStr [128512; 32; 55357; 65]%N).
Proof. reflexivity. Qed.

Example json_loads_refused :
  map json_loads [quoted "01"; quoted "[1,]"; quoted "{'a':1,}"; quoted "'\ud83d\u00'";
                  quoted "-"; quoted "[1] 2"; [34; 9; 34]%N; 65279%N :: quoted "[]"]
  = [None; None; None; None; None; None; None; None].
Proof. reflexivity. Qed.

(** *** The fuel of [json_loads] is enough *)

Lemma length_join_members (sep : pystr) (A : Type) (f : A -> pystr) (g : A -> nat) (l : list A) :
  (1 <= List.length sep)%nat ->
  Forall (fun x => g x <= List.length (f x))%nat l ->
  (fold_right (fun x n => S (g x + n)) 0 l <= List.length (join sep (map f l)) + 1)%nat.
Proof.
  intros Hsep Hall. induction Hall as [|x l Hx Hl IH]; [cbn; lia|].
  destruct l as [|y l].
  - cbn [map join fold_right]. lia.
  - change (map f (x :: y :: l)) with (f x :: f y :: map f l).
    rewrite join_cons2, !length_app. cbn [fold_right] in IH |- *.
    change (f y :: map f l) with (map f (y :: l)). lia.
Qed.

Lemma size_le_length (indent : nat) (v : json) :
  forall level, (size v <= List.length (dumps_at false indent level v))%nat.
Proof.
  induction v as [|b|n|s|l IH|d IH] using json_ind; intros level;
    try (match goal with
         | |- (size ?a <= _)%nat =>
             destruct (dumps_head false indent a level) as (c & tl & -> & _)
         end; cbn [size List.length]; lia).
  - destruct l as [|x l]; [cbn; lia|].
    rewrite dumps_at_list, !length_app. cbn [size].
    pose proof (length_join_members (str "," ++ newline_indent indent (S level)) json
                  (dumps_at false indent (S level)) size (x :: l)) as Hjoin.
    cbn [List.length newline_indent app str map list_ascii_of_string] in Hjoin |- *.
    specialize (Hjoin ltac:(lia)).
    assert (Hall : Forall (fun y => size y <= List.length (dumps_at false indent (S level) y))%nat
                     (x :: l)).
    { eapply Forall_impl; [|exact IH]. intros y Hy. apply Hy. }
    specialize (Hjoin Hall). cbn [map] in Hjoin. lia.
  - destruct d as [|kv d]; [cbn; lia|].
    rewrite dumps_at_dict, !length_app. cbn [size].
    pose proof (length_join_members (str "," ++ newline_indent indent (S level)) (pystr * json)
                  (entry indent (S level)) (fun kv => size (snd kv)) (kv :: d)) as Hjoin.
    cbn [List.length newline_indent app str map list_ascii_of_string] in Hjoin |- *.
    specialize (Hjoin ltac:(lia)).
    assert (Hall : Forall (fun kv => size (snd kv) <= List.length (entry indent (S level) kv))%nat
                     (kv :: d)).
    { eapply Forall_impl; [|exact IH]. intros [k w] Hw. cbn [snd entry] in *.
      rewrite !length_app. specialize (Hw (S level)). lia. }
    specialize (Hjoin Hall). cbn [map] in Hjoin.
    replace (fold_right (fun kv n => let '(_, w) := kv in S (size w + n)) 0 (kv :: d))
      with (fold_right (fun kv n => S (size (snd kv) + n)) 0 (kv :: d)).
    + lia.
    + clear. induction (kv :: d) as [|[k w] l IHl]; [reflexivity|].
      cbn [fold_right snd]. now rewrite IHl.
Qed.

(** [json.loads(json.dumps(v, indent=..., ensure_ascii=False)) == v] *)
Theorem json_loads_dumps (indent : nat) (v : json) :
  wf_json v = true -> json_loads (json_dumps v indent false) = Some v.
Proof.
  intros Hwf. unfold json_loads, json_dumps.
  destruct (dumps_head false indent v 0) as (c & tl & Hhead & Hc).
  pose proof (size_le_length indent v 0) as Hsize.
  pose proof (parse_dumps indent v Hwf (S (List.length (dumps_at false indent 0 v))) 0 []
                ltac:(lia) eq_refl) as Hparse.
  rewrite app_nil_r in Hparse. rewrite Hhead in *.
  rewrite (skip_ws_value c tl Hc), Hparse.
  destruct (N.eqb_spec c 65279) as [->|_]; [discriminate|reflexivity].
Qed.

(** ** What the codec can write *)

Lemma ascii_scalar (c : N) : is_ascii c = true -> is_scalar c = true.
Proof.
  unfold is_ascii, is_scalar, is_surrogate. intros H. apply N.ltb_lt in H.
  destruct (N.ltb_spec c 1114112); [|lia].
  destruct (N.leb_spec 55296 c); [lia|]. reflexivity.
Qed.

Lemma all_ascii_scalar (s : pystr) : forallb is_ascii s = true -> forallb is_scalar s = true.
Proof.
  induction s as [|c s IH]; [reflexivity|]. cbn [forallb]. intros H.
  apply andb_true_iff in H as [Hc Hs]. now rewrite (ascii_scalar c Hc), IH.
Qed.

Lemma digits_ascii (ds : pystr) : forallb is_digit ds = true -> forallb is_ascii ds = true.
Proof.
  induction ds as [|d ds IH]; [reflexivity|]. cbn [forallb]. intros H.
  apply andb_true_iff in H as [Hd Hs]. rewrite (IH Hs), andb_true_r.
  unfold is_digit in Hd. unfold is_ascii. apply andb_true_iff in Hd as [_ Hd].
  apply N.leb_le in Hd. apply N.ltb_lt. lia.
Qed.

Lemma repr_int_ascii (z : Z) : forallb is_ascii (repr_int z) = true.
Proof.
  unfold repr_int. destruct (z <? 0)%Z.
  - destruct (digits_spec (Z.to_N (- z))) as (d & tl & -> & Hdig & _).
    change (forallb is_ascii (45%N :: d :: tl)) with (true && forallb is_ascii (d :: tl)).
    now rewrite (digits_ascii _ Hdig).
  - destruct (digits_spec (Z.to_N z)) as (d & tl & -> & Hdig & _).
    now apply digits_ascii.
Qed.

Lemma hex_digit_ascii (n : N) : (n < 16)%N -> is_ascii (hex_digit n) = true.
Proof.
  intros Hn. unfold hex_digit, is_ascii. destruct (n <? 10)%N; apply N.ltb_lt; lia.
Qed.

Lemma escape_u_ascii (c : N) : forallb is_ascii (escape_u c) = true.
Proof.
  unfold escape_u. cbn [forallb].
  rewrite !hex_digit_ascii by (apply N.mod_lt; discriminate). reflexivity.
Qed.

Lemma escape_char_scalar (c : N) :
  is_scalar c = true -> forallb is_scalar (escape_char false c) = true.
Proof.
  intros Hc. unfold escape_char. cbn [andb].
  repeat match goal with
         | |- context [if ?b then _ else _] => destruct b; try reflexivity
         end.
  - apply all_ascii_scalar, escape_u_ascii.
  - cbn [forallb]. now rewrite Hc.
Qed.

Lemma encode_basestring_scalar (s : pystr) :
  forallb is_scalar s = true -> forallb is_scalar (encode_basestring false s) = true.
Proof.
  intros Hs. unfold encode_basestring.
  change (forallb is_scalar (34%N :: ?r)) with (forallb is_scalar r).
  rewrite forallb_app. cbn [forallb]. rewrite andb_true_r.
  induction s as [|c s IH]; [reflexivity|].
  cbn [forallb] in Hs. apply andb_true_iff in Hs as [Hc Hs].
  cbn [flat_map]. now rewrite forallb_app, (escape_char_scalar c Hc), IH.
Qed.

Lemma newline_indent_scalar (indent level : nat) :
  forallb is_scalar (newline_indent indent level) = true.
Proof.
  unfold newline_indent.
  change (forallb is_scalar (10%N :: ?r)) with (forallb is_scalar r).
  induction (indent * level)%nat as [|n IH]; [reflexivity|exact IH].
Qed.

Lemma join_scalar (sep : pystr) (chunks : list pystr) :
  forallb is_scalar sep = true ->
  Forall (fun c => forallb is_scalar c = true) chunks ->
  forallb is_scalar (join sep chunks) = true.
Proof.
  intros Hsep Hall. induction Hall as [|c l Hc Hl IH]; [reflexivity|].
  destruct l as [|c' l]; [exact Hc|].
  rewrite join_cons2, !forallb_app, Hc, Hsep. exact IH.
Qed.

Lemma dumps_scalar (indent : nat) (v : json) :
  encodable v = true ->
  forall level, forallb is_scalar (dumps_at false indent level v) = true.
Proof.
  induction v as [|b|n|s|l IH|d IH] using json_ind; intros Henc level.
  - reflexivity.
  - destruct b; reflexivity.
  - apply all_ascii_scalar, repr_int_ascii.
  - now apply encode_basestring_scalar.
  - destruct l as [|x l]; [reflexivity|].
    rewrite dumps_at_list, !forallb_app, !newline_indent_scalar.
    rewrite join_scalar; [reflexivity| |].
    + now rewrite forallb_app, newline_indent_scalar.
    + cbn [encodable] in Henc. rewrite forallb_forall in Henc.
      rewrite Forall_forall in IH |- *. intros c Hin.
      apply in_map_iff in Hin as (y & <- & Hy). apply IH; auto.
  - destruct d as [|kv d]; [reflexivity|].
    rewrite dumps_at_dict, !forallb_app, !newline_indent_scalar.
    rewrite join_scalar; [reflexivity| |].
    + now rewrite forallb_app, newline_indent_scalar.
    + cbn [encodable] in Henc. rewrite forallb_forall in Henc.
      rewrite Forall_forall in IH |- *. intros c Hin.
      apply in_map_iff in Hin as ([k w] & <- & Hy).
      specialize (Henc _ Hy). cbn beta iota in Henc.
      apply andb_true_iff in Henc as [Hk Hw].
      unfold entry. rewrite !forallb_app, (encode_basestring_scalar k Hk).
      specialize (IH _ Hy). cbn [snd] in IH. now rewrite (IH Hw).
Qed.

(** ** Persisting and reading back *)

Lemma escape_char_verbatim (c : N) : (127 <= c)%N -> escape_char false c = [c].
Proof.
  intros Hc. unfold escape_char. cbn [andb].
  repeat match goal with
         | |- context [(c =? ?k)%N] => destruct (N.eqb_spec c k); [lia|]
         end.
  destruct (N.ltb_spec c 32); [lia|reflexivity].
Qed.

Lemma read_file_latest (fs : list (string * file_state)) (filename : string) (st : file_state) :
  read_file ((filename, st) :: fs) filename = Some st.
Proof. cbn [read_file]. now rewrite String.eqb_refl. Qed.

Lemma save_datasets_ok (E : env) (datasets : list json) (filename : string) (w : world) :
  can_write E filename = true ->
  forallb encodable datasets = true ->
  exists bytes,
    utf8_encode (json_dumps (JList datasets) 2 false) = Some bytes
    /\ save_datasets E datasets filename w
       = (Ok tt,
          {| stdout := stdout w ++ [[NL; Lit "Saved "; Num (Z.of_nat (List.length datasets));
                                     Lit " datasets to "; Lit filename]];
             requests := requests w;
             sleeps := sleeps w;
             files := (filename, Written bytes) :: files w |}).
Proof.
  intros Hcw Henc.
  destruct (utf8_encode_scalar (json_dumps (JList datasets) 2 false)) as [bytes Hbytes].
  { apply dumps_scalar. exact Henc. }
  exists bytes. split; [exact Hbytes|].
  unfold save_datasets. rewrite Hcw, Hbytes. reflexivity.
Qed.

Lemma utf8_encode_char_refuses (c : N) :
  is_scalar c = false -> utf8_encode_char c = None.
Proof.
  unfold is_scalar, utf8_encode_char, is_surrogate. intros H.
  destruct (N.ltb_spec c 128), (N.ltb_spec c 2048), (N.ltb_spec c 65536),
    (N.ltb_spec c 1114112), (N.leb_spec 55296 c), (N.leb_spec c 57343);
    cbn in H |- *; try reflexivity; try discriminate; lia.
Qed.

Lemma utf8_encode_refuses (s : pystr) :
  forallb is_scalar s = false -> utf8_encode s = None.
Proof.
  induction s as [|c s IH]; [discriminate|]. cbn [forallb utf8_encode]. intros H.
  destruct (is_scalar c) eqn:Hc.
  - rewrite (IH H). now destruct (utf8_encode_char c).
  - now rewrite (utf8_encode_char_refuses c Hc).
Qed.

Lemma escape_char_scalar_inv (c : N) :
  forallb is_scalar (escape_char false c) = true -> is_scalar c = true.
Proof.
  destruct (is_scalar c) eqn:Hc; [reflexivity|]. intros H.
  assert (Hbig : (127 <= c)%N).
  { unfold is_scalar, is_surrogate in Hc.
    destruct (N.ltb_spec c 1114112), (N.leb_spec 55296 c), (N.leb_spec c 57343);
      cbn in Hc; try discriminate; lia. }
  rewrite (escape_char_verbatim c Hbig) in H. cbn [forallb] in H. now rewrite Hc in H.
Qed.

Lemma encode_basestring_scalar_inv (s : pystr) :
  forallb is_scalar (encode_basestring false s) = true -> forallb is_scalar s = true.
Proof.
  unfold encode_basestring.
  change (forallb is_scalar (34%N :: ?r)) with (forallb is_scalar r).
  rewrite forallb_app. intros H. apply andb_true_iff in H as [H _].
  induction s as [|c s IH]; [reflexivity|].
  cbn [flat_map] in H. rewrite forallb_app in H. apply andb_true_iff in H as [Hc Hs].
  cbn [forallb]. now rewrite (escape_char_scalar_inv c Hc), IH.
Qed.

Lemma join_scalar_inv (sep : pystr) (chunks : list pystr) :
  forallb is_scalar (join sep chunks) = true ->
  Forall (fun c => forallb is_scalar c = true) chunks.
Proof.
  induction chunks as [|c l IH]; intros H; [constructor|].
  destruct l as [|c' l].
  - constructor; [exact H|constructor].
  - rewrite join_cons2, !forallb_app in H.
    apply andb_true_iff in H as [Hc H]. apply andb_true_iff in H as [_ H].
    constructor; [exact Hc|]. apply IH. exact H.
Qed.

Lemma dumps_scalar_inv (indent : nat) (v : json) :
  forall level,
    forallb is_scalar (dumps_at false indent level v) = true -> encodable v = true.
Proof.
  induction v as [|b|n|s|l IH|d IH] using json_ind; intros level H; try reflexivity.
  - now apply encode_basestring_scalar_inv.
  - destruct l as [|x l]; [reflexivity|].
    rewrite dumps_at_list, !forallb_app in H.
    apply andb_true_iff in H as [_ H]. apply andb_true_iff in H as [_ H].
    apply andb_true_iff in H as [H _]. apply join_scalar_inv in H.
    cbn [encodable]. apply forallb_forall. intros y Hy.
    rewrite Forall_forall in IH, H. apply (IH y Hy (S level)).
    apply H. now apply in_map.
  - destruct d as [|kv d]; [reflexivity|].
    rewrite dumps_at_dict, !forallb_app in H.
    apply andb_true_iff in H as [_ H]. apply andb_true_iff in H as [_ H].
    apply andb_true_iff in H as [H _]. apply join_scalar_inv in H.
    cbn [encodable]. apply forallb_forall. intros [k w] Hkw.
    rewrite Forall_forall in IH, H.
    specialize (H (entry indent (S level) (k, w)) (in_map _ _ _ Hkw)).
    unfold entry in H. rewrite !forallb_app in H.
    apply andb_true_iff in H as [Hk H]. apply andb_true_iff in H as [_ Hw].
    rewrite (encode_basestring_scalar_inv k Hk).
    exact (IH (k, w) Hkw (S level) Hw).
Qed.

(** With the file writable, [save_datasets] raises on every collection that
    holds a surrogate in a string, and leaves an incomplete file. *)
Lemma save_datasets_refuses (E : env) (datasets : list json) (filename : string) (w : world) :
  can_write E filename = true ->
  forallb encodable datasets = false ->
  save_datasets E datasets filename w
  = (Raise UnicodeEncodeError, snd (set_file filename Partial w)).
Proof.
  intros Hcw Henc. unfold save_datasets. rewrite Hcw.
  rewrite utf8_encode_refuses; [reflexivity|].
  destruct (forallb is_scalar (json_dumps (JList datasets) 2 false)) eqn:Hs; [|reflexivity].
  apply dumps_scalar_inv in Hs. cbn [encodable] in Hs. congruence.
Qed.




(** Such a string is what the scanner makes of the body ["\ud800"], and
    [json.dumps] itself serialises it. *)
Lemma surrogate_is_serialisable :
  json_loads [34; 92; 117; 100; 56; 48; 48; 34]%N = Some (JStr [55296%N])
  /\ json_loads (json_dumps (JStr [55296%N]) 2 false) = Some (JStr [55296%N]).
Proof. split; reflexivity. Qed.

(** ** The exit status *)


Section FailingApi.

Variables (E : env) (db : list json) (fail_at : option (Z * response)) (p : Z).
Hypothesis Hget : forall q, http_get E q = mock_api db fail_at q.
Hypothesis Hfail : forall n r, fail_at = Some (n, r) -> is_failure r = true.
Hypothesis Hp : (1 <= p)%Z.



End FailingApi.






(** ** The error scenario, end to end *)

(** The scenario end to end: after 200 records and a refused connection,
    [main] returns; the file holds those 200 records and the output ends
    with the error, the note of the save, their summary and the field names
    of the first record. *)
Example scenario_persists_and_summarises :
  exists w' bytes,
    main scenario_env 2 empty_world = Some (Ok tt, w')
    /\ requests w' = [make_params 200 1; make_params 200 2]
    /\ read_file (files w') "crick_datasets.json" = Some (Written bytes)
    /\ json_load bytes = Some (JList (firstn 200 (sample_db 450)))
    /\ stdout w'
       = stdout scenario_world
         ++ [[Lit "Error fetching data: "; Err (ConnectionError "Connection refused")];
             [NL; Lit "Saved "; Num 200; Lit " datasets to "; Lit "crick_datasets.json"]]
         ++ expected_summary (firstn 200 (sample_db 450))
         ++ [[NL; Lit "Dataset fields available:"];
             [Txt (json_dumps (JList [JStr (str "id"); JStr (str "title");
                                      JStr (str "publication_year"); JStr (str "doi");
                                      JStr (str "open_access")]) 2 true)]].
Proof.
  set (ds := firstn 200 (sample_db 450)).
  set (w1 := after_error (make_params 200 2) (ConnectionError "Connection refused")
               scenario_world).
  assert (Hfetch : get_crick_datasets scenario_env 2 200 None empty_world = Some (Ok ds, w1)).
  { unfold get_crick_datasets. cbn [fetch_loop].
    change (fetch_page scenario_env 200 None 1 [] (snd (announce empty_world)))
      with (fst (fetch_page scenario_env 200 None 1 [] (snd (announce empty_world))),
            scenario_world).
    replace (fst (fetch_page scenario_env 200 None 1 [] (snd (announce empty_world))))
      with (Ok (A := flow * list json) (Continue, ds)) by (vm_compute; reflexivity).
    rewrite (fetch_page_failure scenario_env 200 None (1 + 1) ds scenario_world eq_refl).
    reflexivity. }
  assert (Henc : forallb encodable ds = true) by (vm_compute; reflexivity).
  assert (Hwf : forallb wf_json ds = true) by (vm_compute; reflexivity).
  assert (Hprev : forallb previewable (firstn 5 ds) = true) by (vm_compute; reflexivity).
  destruct (save_datasets_ok scenario_env ds "crick_datasets.json" w1 eq_refl Henc)
    as (bytes & Hbytes & Hsave).
  assert (Hds : exists rest, ds = sample_record 0 :: rest)
    by (eexists; vm_compute; reflexivity).
  destruct Hds as (rest & Hds).
  assert (Hlen : List.length ds = 200%nat) by (vm_compute; reflexivity).
  assert (Hload : json_load bytes = Some (JList ds)).
  { unfold json_load. rewrite (utf8_decode_encode _ _ Hbytes).
    apply (json_loads_dumps 2 (JList ds)). exact Hwf. }
  clearbody ds. subst ds.
  eexists. exists bytes. split.
  - unfold main. rewrite Hfetch. unfold report.
    unfold bind at 1. rewrite Hsave.
    unfold bind at 1. rewrite (print_summary_ok _ _ Hprev).
    reflexivity.
  - split; [reflexivity|]. split; [apply read_file_latest|]. split; [exact Hload|].
    cbn [stdout add_lines w1 after_error]. unfold expected_summary.
    rewrite Hlen. rewrite <- !app_assoc. reflexivity.
Qed.

(** * The pipeline beyond the testable properties *)

(** ** One page of any API *)

Lemma fetch_page_body E p max page all w d :
  page_body E p page = Some d ->
  fetch_page E p max page all w
  = process_page p max page all (results_of d) (meta_of d)
      (after_request (make_params p page) w).
Proof.
  unfold page_body. intros Hbody.
  unfold fetch_page, try_page, get_json, bind at 1 2 3 4. cbn [log_request].
  destruct (http_get E (make_params p page)) as [msg|status [data|]]; try discriminate.
  destruct data as [| | | | |d']; try discriminate.
  cbn [is_failure] in Hbody.
  destruct ((400 <=? status)%Z && (status <? 600)%Z); [discriminate|].
  injection Hbody as ->.
  cbn [ret py_get bind]. fold (results_of d) (meta_of d).
  unfold after_request. cbn [log_request snd].
  match goal with |- context [process_page ?a ?b ?c ?e ?f ?g ?h] =>
    destruct (process_page a b c e f g h) as [[v|e0] w1] eqn:Hpp end; [reflexivity|].
  apply (process_page_not_caught E) in Hpp. now rewrite Hpp.
Qed.


Ltac solve_extends :=
  unfold extends; cbn; repeat split; auto using app_nil_r; try lia.

Lemma process_page_extends p max page all results meta w :
  extends w (snd (process_page p max page all results meta w)) []
    (naps_of (flow_of (fst (process_page p max page all results meta w)))).
Proof.
  unfold process_page, extends.
  destruct (negb (truthy results)); [cbn; auto using app_nil_r|].
  destruct (py_iter results) as [items|], (py_len results) as [n|];
    try (cbn; auto using app_nil_r).
  unfold bind at 1 2. cbn [print].
  destruct meta; cbn [py_get raise ret bind print fst snd flow_of naps_of];
    try (cbn; auto using app_nil_r).
  destruct (max_reached max (all ++ items)).
  - destruct max; cbn; auto using app_nil_r.
  - destruct (n <? p)%Z; cbn; repeat split; auto using app_nil_r. lia.
Qed.

Lemma fetch_page_extends E p max page all w :
  extends w (snd (fetch_page E p max page all w)) [make_params p page]
    (naps_of (flow_of (fst (fetch_page E p max page all w)))).
Proof.
  destruct (page_body E p page) as [d|] eqn:Hbody.
  - rewrite (fetch_page_body E p max page all w d Hbody).
    assert (Hreq : extends w (after_request (make_params p page) w) [make_params p page] 0).
    { solve_extends. }
    exact (extends_trans Hreq (process_page_extends _ _ _ _ _ _ _)).
  - unfold page_body in Hbody.
    remember (fetch_page E p max page all w) as r eqn:Hr.
    unfold fetch_page, try_page, get_json, bind at 1 2 3 4 in Hr. cbn [log_request] in Hr.
    destruct (http_get E (make_params p page)) as [msg|status body].
    + subst r. solve_extends.
    + cbn [is_failure] in Hbody.
      destruct ((400 <=? status)%Z && (status <? 600)%Z).
      * subst r. solve_extends.
      * destruct body as [data|].
        -- destruct data; try discriminate; subst r; solve_extends.
        -- cbn [raise is_request_exception] in Hr.
           destruct (json_error_is_request_exception E); subst r; solve_extends.
Qed.

(** ** The loop against any API *)

Lemma fetch_loop_extends E p max (fuel : nat) :
  forall page all w r w',
    fetch_loop E fuel p max page all w = Some (r, w') ->
    exists c, extends w w' (map (make_params p) (pages page (S c))) c.
Proof.
  induction fuel as [|fuel IH]; intros page all w r w' Hrun; [discriminate|].
  cbn [fetch_loop] in Hrun.
  pose proof (fetch_page_extends E p max page all w) as Hext.
  destruct (fetch_page E p max page all w) as [[[[|] all1]|e] w1];
    cbn [fst snd flow_of naps_of] in Hext.
  - destruct (IH _ _ _ _ _ Hrun) as (c & Hc). exists (S c).
    rewrite (pages_S page (S c)). exact (extends_trans Hext Hc).
  - injection Hrun as <- <-. exists 0%nat. rewrite pages_S. exact Hext.
  - injection Hrun as <- <-. exists 0%nat. rewrite pages_S. exact Hext.
Qed.

(** X1: whatever the API answers, the requests of a fetch are those for the
    pages 1, 2, ..., c in this order, each with the page size asked for, the
    filter and the contact address; there is one pause after each page but
    the last, and no file is touched. *)
Theorem requests_are_consecutive_pages (E : env) (p : Z) (max_results : option Z)
    (fuel : nat) (w w' : world) (r : result (list json)) :
  get_crick_datasets E fuel p max_results w = Some (r, w') ->
  exists c,
    requests w' = requests w ++ map (make_params p) (pages 1 (S c))
    /\ sleeps w' = (sleeps w + c)%nat
    /\ files w' = files w.
Proof.
  intros Hrun.
  destruct (get_crick_datasets_loop E fuel p max_results w) as (w2 & Hloop & Hw2).
  rewrite Hloop in Hrun.
  destruct (fetch_loop_extends E p max_results fuel _ _ _ _ _ Hrun) as (c & Hc).
  exists c. exact (extends_trans Hw2 Hc).
Qed.

Lemma requests_are_consecutive_pages_witness :
  exists c,
    requests (after_error (make_params 200 2) (ConnectionError "Connection refused")
                scenario_world)
    = requests empty_world ++ map (make_params 200) (pages 1 (S c))
    /\ sleeps (after_error (make_params 200 2) (ConnectionError "Connection refused")
                 scenario_world)
       = (sleeps empty_world + c)%nat
    /\ files (after_error (make_params 200 2) (ConnectionError "Connection refused")
                scenario_world)
       = files empty_world.
Proof.
  apply (requests_are_consecutive_pages scenario_env 200 None 2 empty_world
           (after_error (make_params 200 2) (ConnectionError "Connection refused")
              scenario_world)
           (Ok (firstn 200 (sample_db 450)))).
  vm_compute. reflexivity.
Defined.

(** ** Where the loop ends *)

Lemma fetch_ends_after_pages E p max (n fuel : nat) w0 page all w :
  after_pages E n p max 1 [] (snd (announce w0)) = Some (page, all, w) ->
  (n < fuel)%nat ->
  flow_of (fst (fetch_page E p max page all w)) = Break ->
  get_crick_datasets E fuel p max w0 = Some (outcome (fetch_page E p max page all w)).
Proof.
  intros Hrun Hfuel Hbreak.
  destruct (after_pages_run _ _ _ _ _ _ _ _ _ _ Hrun) as (_ & _ & _ & Hloop).
  unfold get_crick_datasets. replace fuel with (n + S (fuel - S n))%nat by lia.
  rewrite Hloop. cbn [fetch_loop].
  destruct (fetch_page E p max page all w) as [[[[|] all1]|e] w1]; try reflexivity.
  discriminate.
Qed.

Lemma after_pages_requests E p max (n : nat) w0 page all w :
  after_pages E n p max 1 [] (snd (announce w0)) = Some (page, all, w) ->
  page = (1 + Z.of_nat n)%Z
  /\ all = flat_map (page_items E p) (pages 1 n)
  /\ requests w = requests w0 ++ map (make_params p) (pages 1 n)
  /\ sleeps w = (sleeps w0 + n)%nat
  /\ files w = files w0.
Proof.
  intros Hrun.
  destruct (after_pages_run _ _ _ _ _ _ _ _ _ _ Hrun) as (Hpage & Hall & (Hr & Hs & Hf) & _).
  repeat split; assumption.
Qed.

Lemma process_page_falsy p max page all results meta w :
  truthy results = false ->
  process_page p max page all results meta w = (Ok (Break, all), w).
Proof. intros H. unfold process_page. now rewrite H. Qed.

(** X2: an empty page ends the fetch: when the [results] of a page are empty
    (or missing, or any other falsy value) after [n] pages went through, the
    fetch returns the records of those [n] pages, prints nothing for the
    page, takes no pause and asks for no further page; the [meta] of that
    page is not looked at.  For [n = 0] the result is the empty list after a
    single request. *)
Theorem empty_page_ends_fetch (E : env) (p : Z) (max_results : option Z)
    (n fuel : nat) (w0 w : world) (page : Z) (all : list json)
    (d : list (pystr * json)) :
  after_pages E n p max_results 1 [] (snd (announce w0)) = Some (page, all, w) ->
  page_body E p page = Some d ->
  truthy (results_of d) = false ->
  (n < fuel)%nat ->
  exists w',
    get_crick_datasets E fuel p max_results w0 = Some (Ok all, w')
    /\ all = flat_map (page_items E p) (pages 1 n)
    /\ requests w' = requests w0 ++ map (make_params p) (pages 1 (S n))
    /\ stdout w' = stdout w
    /\ sleeps w' = (sleeps w0 + n)%nat
    /\ files w' = files w0.
Proof.
  intros Hrun Hbody Hfalsy Hfuel.
  destruct (after_pages_requests _ _ _ _ _ _ _ _ Hrun) as (Hpage & Hall & Hr & Hs & Hf).
  pose proof (fetch_page_body E p max_results page all w d Hbody) as Hfetch.
  rewrite (process_page_falsy _ _ _ _ _ _ _ Hfalsy) in Hfetch.
  exists (after_request (make_params p page) w). split.
  - rewrite (fetch_ends_after_pages E p max_results n fuel w0 page all w Hrun Hfuel);
      rewrite Hfetch; reflexivity.
  - split; [exact Hall|]. cbn [after_request log_request snd requests stdout sleeps files].
    rewrite Hr, pages_snoc, map_app, Hpage, <- app_assoc. repeat split; assumption.
Qed.

Lemma empty_page_ends_fetch_witness :
  exists w',
    get_crick_datasets (body_env (JDict [(str "meta", JNull)])) 1 200 (Some 10%Z) empty_world
    = Some (Ok [], w')
    /\ [] = flat_map (page_items (body_env (JDict [(str "meta", JNull)])) 200) (pages 1 0)
    /\ requests w' = requests empty_world ++ map (make_params 200) (pages 1 1)
    /\ stdout w' = stdout (snd (announce empty_world))
    /\ sleeps w' = (sleeps empty_world + 0)%nat
    /\ files w' = files empty_world.
Proof.
  apply (empty_page_ends_fetch (body_env (JDict [(str "meta", JNull)])) 200 (Some 10%Z)
           0 1 empty_world (snd (announce empty_world)) 1 [] [(str "meta", JNull)]).
  - reflexivity.
  - reflexivity.
  - reflexivity.
  - lia.
Defined.

(** ** The last page *)

Lemma process_page_short p max page all results mt items n w :
  truthy results = true ->
  py_iter results = Some items ->
  py_len results = Some n ->
  max_reached max (all ++ items) = false ->
  (n < p)%Z ->
  process_page p max page all results (JDict mt) w
  = (Ok (Break, all ++ items),
     add_lines w (progress_lines page n (Z.of_nat (List.length (all ++ items)))
                    (dict_get mt (str "count") (JStr (str "unknown"))))).
Proof.
  intros Ht Hit Hlen Hmax Hshort. unfold process_page. rewrite Ht, Hit, Hlen. cbn [negb].
  cbn [py_get bind ret print]. rewrite Hmax.
  destruct (Z.ltb_spec n p); [|lia].
  unfold add_lines, progress_lines. cbn [stdout requests sleeps files].
  now rewrite <- !app_assoc.
Qed.



(** ** The page that reaches the limit *)




(** ** Below the limit *)

Lemma process_page_inv p max page all results meta w f all' w' :
  process_page p max page all results meta w = (Ok (f, all'), w') ->
  (f = Break /\ all' = all)
  \/ exists items,
       py_iter results = Some items
       /\ ((max_reached max (all ++ items) = true /\ f = Break
            /\ all' = match max with
                      | Some m => slice_to (all ++ items) m
                      | None => all ++ items
                      end)
           \/ (max_reached max (all ++ items) = false /\ all' = all ++ items)).
Proof.
  unfold process_page.
  destruct (negb (truthy results)); [intros [= <- <- _]; now left|].
  destruct (py_iter results) as [items|]; [|destruct (py_len results); discriminate].
  destruct (py_len results) as [n|]; [|discriminate].
  unfold bind at 1 2. cbn [print].
  destruct meta; cbn [py_get raise ret bind print]; try discriminate.
  intros H. right. exists items. split; [reflexivity|].
  destruct (max_reached max (all ++ items)).
  - left. destruct max; injection H as <- <- _; auto.
  - right. destruct (n <? p)%Z; cbn [sleep bind ret] in H; injection H as <- <- _; auto.
Qed.

Lemma fetch_page_no_body E p max page all w f all' w' :
  page_body E p page = None ->
  fetch_page E p max page all w = (Ok (f, all'), w') ->
  f = Break /\ all' = all.
Proof.
  unfold page_body. intros Hbody.
  unfold fetch_page, try_page, get_json, bind at 1 2 3 4. cbn [log_request].
  destruct (http_get E (make_params p page)) as [msg|status body].
  - cbn. intros [= <- <- _]. auto.
  - cbn [is_failure] in Hbody.
    destruct ((400 <=? status)%Z && (status <? 600)%Z).
    + cbn. intros [= <- <- _]. auto.
    + destruct body as [data|].
      * destruct data; try discriminate; cbn; discriminate.
      * cbn [raise is_request_exception].
        destruct (json_error_is_request_exception E); cbn; [|discriminate].
        intros [= <- <- _]. auto.
Qed.

Lemma fetch_page_below_max E p m page all w f all' w' :
  (0 < m)%Z ->
  (Z.of_nat (List.length all) < m)%Z ->
  fetch_page E p (Some m) page all w = (Ok (f, all'), w') ->
  (Z.of_nat (List.length all') <= m)%Z
  /\ (f = Continue -> (Z.of_nat (List.length all') < m)%Z).
Proof.
  intros Hm Hall Hpage.
  destruct (page_body E p page) as [d|] eqn:Hbody.
  - rewrite (fetch_page_body E p (Some m) page all w d Hbody) in Hpage.
    apply process_page_inv in Hpage as [[-> ->]|(items & _ & [(_ & -> & ->)|(Hmax & ->)])].
    + split; [lia|discriminate].
    + split; [|discriminate]. unfold slice_to.
      destruct (Z.ltb_spec m 0); [lia|]. rewrite length_firstn. lia.
    + cbn [max_reached] in Hmax.
      destruct (Z.eqb_spec m 0); [lia|]. cbn [negb andb] in Hmax.
      apply Z.leb_gt in Hmax. split; [lia|intros _; exact Hmax].
  - destruct (fetch_page_no_body E p (Some m) page all w f all' w' Hbody Hpage) as [-> ->].
    split; [lia|discriminate].
Qed.

Lemma fetch_loop_below_max E p m (fuel : nat) :
  forall page all w ds w',
    (0 < m)%Z ->
    (Z.of_nat (List.length all) < m)%Z ->
    fetch_loop E fuel p (Some m) page all w = Some (Ok ds, w') ->
    (Z.of_nat (List.length ds) <= m)%Z.
Proof.
  induction fuel as [|fuel IH]; intros page all w ds w' Hm Hall Hrun; [discriminate|].
  cbn [fetch_loop] in Hrun.
  destruct (fetch_page E p (Some m) page all w) as [[[f all1]|e] w1] eqn:Hpage;
    [|discriminate].
  destruct (fetch_page_below_max E p m page all w f all1 w1 Hm Hall Hpage) as [Hle Hlt].
  destruct f.
  - exact (IH _ _ _ _ _ Hm (Hlt eq_refl) Hrun).
  - injection Hrun as <- _. exact Hle.
Qed.

(** X5: whatever the API answers (pages longer than asked for included), a fetch
    with a positive [max_results] never returns more than [max_results]
    records. *)
Theorem never_more_than_max_results (E : env) (p m : Z) (fuel : nat)
    (w w' : world) (ds : list json) :
  (0 < m)%Z ->
  get_crick_datasets E fuel p (Some m) w = Some (Ok ds, w') ->
  (Z.of_nat (List.length ds) <= m)%Z.
Proof.
  intros Hm Hrun. unfold get_crick_datasets in Hrun.
  apply (fetch_loop_below_max E p m fuel 1%Z [] (snd (announce w)) ds w' Hm);
    [cbn; lia|exact Hrun].
Qed.

Lemma never_more_than_max_results_witness :
  option_map fst (get_crick_datasets (mock_env (sample_db 7) None true) 8 5 (Some 2%Z)
                    empty_world)
  = Some (Ok (firstn 2 (sample_db 7)))
  /\ (Z.of_nat (List.length (firstn 2 (sample_db 7))) <= 2)%Z.
Proof.
  split; [reflexivity|].
  apply (never_more_than_max_results (mock_env (sample_db 7) None true) 5 2 8 empty_world
           (snd (process_page 5 (Some 2%Z) 1 [] (JList (page_of (sample_db 7) 5 1))
                   (JDict (api_meta (sample_db 7) (make_params 5 1)))
                   (after_request (make_params 5 1) (snd (announce empty_world)))))
           (firstn 2 (sample_db 7))).
  - lia.
  - vm_compute. reflexivity.
Defined.




(** ** Termination *)





Lemma truthy_iter (v : json) (items : list json) :
  truthy v = true -> py_iter v = Some items -> (0 < List.length items)%nat.
Proof.
  destruct v as [| | |s|l|d]; try discriminate; intros Ht [= <-].
  - destruct s; [discriminate|]. cbn. lia.
  - destruct l; [discriminate|]. cbn. lia.
  - destruct d; [discriminate|]. cbn. lia.
Qed.

Lemma fetch_page_continue_grows E p max page all all' w w' :
  fetch_page E p max page all w = (Ok (Continue, all'), w') ->
  (List.length all < List.length all')%nat
  /\ max_reached max all' = false.
Proof.
  intros Hpage.
  destruct (page_body E p page) as [d|] eqn:Hbody.
  - rewrite (fetch_page_body E p max page all w d Hbody) in Hpage.
    revert Hpage. unfold process_page.
    destruct (truthy (results_of d)) eqn:Ht; [|discriminate]. cbn [negb].
    destruct (py_iter (results_of d)) as [items|] eqn:Hit;
      [|destruct (py_len (results_of d)); discriminate].
    destruct (py_len (results_of d)) as [n|]; [|discriminate].
    unfold bind at 1 2. cbn [print].
    destruct (meta_of d); cbn [py_get raise ret bind print]; try discriminate.
    destruct (max_reached max (all ++ items)) eqn:Hmax; [destruct max; discriminate|].
    destruct (n <? p)%Z; [discriminate|]. cbn [sleep bind ret]. intros [= <- _].
    pose proof (truthy_iter _ _ Ht Hit). rewrite length_app. split; [lia|exact Hmax].
  - destruct (fetch_page_no_body E p max page all w _ _ _ Hbody Hpage). discriminate.
Qed.

Lemma fetch_loop_bounded E p m (fuel : nat) :
  forall page all w,
    (Z.of_nat (List.length all) < m)%Z ->
    (Z.to_nat m - List.length all <= fuel)%nat ->
    exists r w' c,
      fetch_loop E fuel p (Some m) page all w = Some (r, w')
      /\ extends w w' (map (make_params p) (pages page (S c))) c
      /\ (S c <= Z.to_nat m - List.length all)%nat.
Proof.
  induction fuel as [|fuel IH]; intros page all w Hall Hfuel; [lia|].
  cbn [fetch_loop].
  pose proof (fetch_page_extends E p (Some m) page all w) as Hext.
  destruct (fetch_page E p (Some m) page all w) as [[[[|] all1]|e] w1] eqn:Hpage;
    cbn [fst snd flow_of naps_of] in Hext.
  - destruct (fetch_page_continue_grows _ _ _ _ _ _ _ _ Hpage) as [Hgrow Hmax].
    cbn [max_reached] in Hmax.
    assert (Hall1 : (Z.of_nat (List.length all1) < m)%Z).
    { destruct (Z.eqb_spec m 0); [lia|]. cbn [negb andb] in Hmax.
      now apply Z.leb_gt in Hmax. }
    destruct (IH (page + 1)%Z all1 w1 Hall1) as (r & w' & c & Hrun & Hc & Hle); [lia|].
    exists r, w', (S c). split; [exact Hrun|]. split; [|lia].
    rewrite (pages_S page (S c)). exact (extends_trans Hext Hc).
  - exists (Ok all1), w1, 0%nat. split; [reflexivity|]. rewrite pages_S. split; [exact Hext|lia].
  - exists (Raise e), w1, 0%nat. split; [reflexivity|]. rewrite pages_S. split; [exact Hext|lia].
Qed.

(** X8: with a positive [max_results] the fetch ends against every API, after
    at most [max_results] requests: each page that lets the loop go on adds
    at least one record, and the loop goes on only below the limit. *)
Theorem positive_max_results_bounds_requests (E : env) (p m : Z) (fuel : nat) (w : world) :
  (0 < m)%Z ->
  (Z.to_nat m <= fuel)%nat ->
  exists r w' c,
    get_crick_datasets E fuel p (Some m) w = Some (r, w')
    /\ requests w' = requests w ++ map (make_params p) (pages 1 c)
    /\ (1 <= c <= Z.to_nat m)%nat.
Proof.
  intros Hm Hfuel. unfold get_crick_datasets.
  destruct (fetch_loop_bounded E p m fuel 1%Z [] (snd (announce w)))
    as (r & w' & c & Hrun & (Hreq & _) & Hc); [cbn; lia|cbn; lia|].
  exists r, w', (S c). split; [exact Hrun|]. split; [exact Hreq|]. cbn in Hc. lia.
Qed.

Lemma positive_max_results_bounds_requests_witness :
  exists r w' c,
    get_crick_datasets endless_env 3 1 (Some 3%Z) empty_world = Some (r, w')
    /\ requests w' = requests empty_world ++ map (make_params 1) (pages 1 c)
    /\ (1 <= c <= Z.to_nat 3)%nat.
Proof.
  apply (positive_max_results_bounds_requests endless_env 1 3 3 empty_world); lia.
Defined.

(** ** Responses of another shape *)

Lemma fetch_raises_after_pages E p max (n fuel : nat) w0 page all w e w' :
  after_pages E n p max 1 [] (snd (announce w0)) = Some (page, all, w) ->
  (n < fuel)%nat ->
  fetch_page E p max page all w = (Raise e, w') ->
  get_crick_datasets E fuel p max w0 = Some (Raise e, w')
  /\ (p = 200%Z -> max = None ->
      main E fuel w0 = Some (Raise e, w')).
Proof.
  intros Hrun Hfuel Hpage.
  assert (Hget : get_crick_datasets E fuel p max w0 = Some (Raise e, w')).
  { rewrite (fetch_ends_after_pages E p max n fuel w0 page all w Hrun Hfuel);
      rewrite Hpage; reflexivity. }
  split; [exact Hget|]. intros -> ->. unfold main. now rewrite Hget.
Qed.

Lemma fetch_page_non_object E p max page all w status data :
  http_get E (make_params p page) = Response status (Some data) ->
  is_failure (Response status (Some data)) = false ->
  is_dict data = false ->
  fetch_page E p max page all w
  = (Raise AttributeError, after_request (make_params p page) w).
Proof.
  intros Hget Hok Hdata. unfold fetch_page, try_page, get_json, bind at 1 2 3 4.
  cbn [log_request]. rewrite Hget. cbn [is_failure] in Hok. rewrite Hok.
  destruct data; try discriminate; reflexivity.
Qed.

(** X9: a body that is JSON but no object (a list, a string, [null], ...) is
    not handled: [data.get] raises [AttributeError], which is no
    [RequestException], so it leaves [get_crick_datasets]; the records of
    the pages before are not returned, no error line is printed, and [main]
    ends on the exception with a non-zero status. *)
Theorem non_object_body_raises (E : env) (p : Z) (max_results : option Z)
    (n fuel : nat) (w0 w : world) (page : Z) (all : list json) (status : Z) (data : json) :
  after_pages E n p max_results 1 [] (snd (announce w0)) = Some (page, all, w) ->
  http_get E (make_params p page) = Response status (Some data) ->
  is_failure (Response status (Some data)) = false ->
  is_dict data = false ->
  (n < fuel)%nat ->
  get_crick_datasets E fuel p max_results w0
  = Some (Raise AttributeError, after_request (make_params p page) w)
  /\ stdout (after_request (make_params p page) w) = stdout w
  /\ (p = 200%Z -> max_results = None ->
      option_map fst (main E fuel w0) = Some (Raise AttributeError)
      /\ option_map (fun r => exit_status (fst r)) (main E fuel w0) = Some 1%Z).
Proof.
  intros Hrun Hget Hok Hdata Hfuel.
  destruct (fetch_raises_after_pages E p max_results n fuel w0 page all w _ _ Hrun Hfuel
              (fetch_page_non_object E p max_results page all w status data Hget Hok Hdata))
    as [Hfetch Hmain].
  split; [exact Hfetch|]. split; [reflexivity|].
  intros Hp Hmax. rewrite (Hmain Hp Hmax). split; reflexivity.
Qed.

Lemma non_object_body_raises_witness :
  get_crick_datasets (body_env (JList [sample_record 1])) 1 200 None empty_world
  = Some (Raise AttributeError, after_request (make_params 200 1) (snd (announce empty_world)))
  /\ stdout (after_request (make_params 200 1) (snd (announce empty_world)))
     = stdout (snd (announce empty_world))
  /\ (200%Z = 200%Z -> @None Z = None ->
      option_map fst (main (body_env (JList [sample_record 1])) 1 empty_world)
      = Some (Raise AttributeError)
      /\ option_map (fun r => exit_status (fst r))
           (main (body_env (JList [sample_record 1])) 1 empty_world)
         = Some 1%Z).
Proof.
  apply (non_object_body_raises (body_env (JList [sample_record 1])) 200 None 0 1
           empty_world (snd (announce empty_world)) 1 [] 200 (JList [sample_record 1])).
  - reflexivity.
  - reflexivity.
  - reflexivity.
  - reflexivity.
  - lia.
Defined.

Lemma process_page_bad_meta p max page all results meta items n w :
  truthy results = true ->
  py_iter results = Some items ->
  py_len results = Some n ->
  is_dict meta = false ->
  process_page p max page all results meta w
  = (Raise AttributeError,
     add_lines w [[Lit "Page "; Num page; Lit ": Retrieved "; Num n; Lit " datasets"];
                  [Lit "Total so far: "; Num (Z.of_nat (List.length (all ++ items)))]]).
Proof.
  intros Ht Hit Hlen Hmeta. unfold process_page. rewrite Ht, Hit, Hlen. cbn [negb].
  unfold bind at 1 2. cbn [print].
  destruct meta; try discriminate; cbn [py_get raise bind];
    unfold add_lines; cbn [stdout requests sleeps files]; now rewrite <- app_assoc.
Qed.

(** X10: a [meta] that is present and no object is looked at only after the
    page's records were taken and two of the three progress lines printed:
    [meta.get] then raises [AttributeError], which nothing catches, and the
    fetch returns no records at all. *)
Theorem non_object_meta_raises (E : env) (p : Z) (max_results : option Z)
    (n fuel : nat) (w0 w : world) (page : Z) (all : list json)
    (d : list (pystr * json)) (r : json) (rs : list json) :
  after_pages E n p max_results 1 [] (snd (announce w0)) = Some (page, all, w) ->
  page_body E p page = Some d ->
  results_of d = JList (r :: rs) ->
  is_dict (meta_of d) = false ->
  (n < fuel)%nat ->
  exists w',
    get_crick_datasets E fuel p max_results w0 = Some (Raise AttributeError, w')
    /\ stdout w'
       = stdout w
         ++ [[Lit "Page "; Num page; Lit ": Retrieved ";
              Num (Z.of_nat (List.length (r :: rs))); Lit " datasets"];
             [Lit "Total so far: "; Num (Z.of_nat (List.length (all ++ r :: rs)))]]
    /\ (p = 200%Z -> max_results = None ->
        option_map (fun r => exit_status (fst r)) (main E fuel w0) = Some 1%Z).
Proof.
  intros Hrun Hbody Hres Hmeta Hfuel.
  pose proof (fetch_page_body E p max_results page all w d Hbody) as Hpage.
  rewrite Hres in Hpage.
  rewrite (process_page_bad_meta p max_results page all (JList (r :: rs)) (meta_of d)
             (r :: rs) (Z.of_nat (List.length (r :: rs))) _ eq_refl eq_refl eq_refl Hmeta)
    in Hpage.
  destruct (fetch_raises_after_pages E p max_results n fuel w0 page all w _ _ Hrun Hfuel Hpage)
    as [Hfetch Hmain].
  eexists. split; [exact Hfetch|]. split; [reflexivity|].
  intros Hp Hmax. now rewrite (Hmain Hp Hmax).
Qed.

Lemma non_object_meta_raises_witness :
  exists w',
    get_crick_datasets
      (body_env (JDict [(str "results", JList [sample_record 1]); (str "meta", JNull)]))
      1 200 None empty_world
    = Some (Raise AttributeError, w')
    /\ stdout w'
       = stdout (snd (announce empty_world))
         ++ [[Lit "Page "; Num 1; Lit ": Retrieved ";
              Num (Z.of_nat (List.length [sample_record 1])); Lit " datasets"];
             [Lit "Total so far: "; Num (Z.of_nat (List.length ([] ++ [sample_record 1])))]]
    /\ (200%Z = 200%Z -> @None Z = None ->
        option_map (fun r => exit_status (fst r))
          (main (body_env (JDict [(str "results", JList [sample_record 1]);
                                  (str "meta", JNull)])) 1 empty_world)
        = Some 1%Z).
Proof.
  apply (non_object_meta_raises
           (body_env (JDict [(str "results", JList [sample_record 1]); (str "meta", JNull)]))
           200 None 0 1 empty_world (snd (announce empty_world)) 1 []
           [(str "results", JList [sample_record 1]); (str "meta", JNull)]
           (sample_record 1) []).
  - reflexivity.
  - reflexivity.
  - reflexivity.
  - reflexivity.
  - lia.
Defined.

Lemma process_page_not_iterable p max page all results meta w :
  truthy results = true ->
  py_iter results = None ->
  process_page p max page all results meta w = (Raise TypeError, w).
Proof.
  intros Ht Hit. unfold process_page. rewrite Ht, Hit. reflexivity.
Qed.

(** X11: a [results] that is truthy and cannot be iterated over (a number other
    than 0, [true]) makes [all_datasets.extend] raise [TypeError], which
    nothing catches: the fetch returns no records, prints nothing for the
    page and [main] ends with a non-zero status. *)
Theorem not_iterable_results_raise (E : env) (p : Z) (max_results : option Z)
    (n fuel : nat) (w0 w : world) (page : Z) (all : list json)
    (d : list (pystr * json)) :
  after_pages E n p max_results 1 [] (snd (announce w0)) = Some (page, all, w) ->
  page_body E p page = Some d ->
  truthy (results_of d) = true ->
  py_iter (results_of d) = None ->
  (n < fuel)%nat ->
  get_crick_datasets E fuel p max_results w0
  = Some (Raise TypeError, after_request (make_params p page) w)
  /\ stdout (after_request (make_params p page) w) = stdout w
  /\ (p = 200%Z -> max_results = None ->
      option_map (fun r => exit_status (fst r)) (main E fuel w0) = Some 1%Z).
Proof.
  intros Hrun Hbody Ht Hit Hfuel.
  pose proof (fetch_page_body E p max_results page all w d Hbody) as Hpage.
  rewrite (process_page_not_iterable _ _ _ _ _ _ _ Ht Hit) in Hpage.
  destruct (fetch_raises_after_pages E p max_results n fuel w0 page all w _ _ Hrun Hfuel Hpage)
    as [Hfetch Hmain].
  split; [exact Hfetch|]. split; [reflexivity|].
  intros Hp Hmax. now rewrite (Hmain Hp Hmax).
Qed.

Lemma not_iterable_results_raise_witness :
  get_crick_datasets (body_env (JDict [(str "results", JInt 5)])) 1 200 None empty_world
  = Some (Raise TypeError, after_request (make_params 200 1) (snd (announce empty_world)))
  /\ stdout (after_request (make_params 200 1) (snd (announce empty_world)))
     = stdout (snd (announce empty_world))
  /\ (200%Z = 200%Z -> @None Z = None ->
      option_map (fun r => exit_status (fst r))
        (main (body_env (JDict [(str "results", JInt 5)])) 1 empty_world)
      = Some 1%Z).
Proof.
  apply (not_iterable_results_raise (body_env (JDict [(str "results", JInt 5)])) 200 None
           0 1 empty_world (snd (announce empty_world)) 1 [] [(str "results", JInt 5)]).
  - reflexivity.
  - reflexivity.
  - reflexivity.
  - reflexivity.
  - lia.
Defined.

(** ** The number of requests *)

Lemma stops_at_request_count (k : nat) (p : Z) (max : option Z) (c : nat) :
  (1 <= p)%Z ->
  (forall m, max = Some m -> (0 <= m)%Z) ->
  stops_at k p max (1 + Z.of_nat c) ->
  Z.of_nat (S c) = request_count k p max.
Proof.
  intros Hp Hmax. unfold stops_at, request_count.
  assert (Hdiv : forall a, ((1 + Z.of_nat c - 1) * p <= a < (1 + Z.of_nat c) * p)%Z ->
                           Z.of_nat (S c) = (a / p + 1)%Z).
  { intros a Ha. rewrite Nat2Z.inj_succ.
    assert (a / p = Z.of_nat c)%Z; [|lia].
    symmetry. apply (Z.div_unique a p (Z.of_nat c) (a - Z.of_nat c * p)); nia. }
  destruct max as [m|]; [|apply Hdiv].
  specialize (Hmax m eq_refl).
  destruct ((m =? 0)%Z || (Z.of_nat k <? m)%Z); [apply Hdiv|].
  intros Hm. apply Hdiv. lia.
Qed.

(** X12: against an API that holds [k] records and serves them in pages, the
    fetch makes [k / p + 1] requests when no limit stops it, and
    [(m - 1) / p + 1] when the limit [m] is positive and within the records;
    it pauses once between two requests.  So without a limit a last page
    that is full costs one more request, which comes back empty, and a limit
    reached at the end of a page saves it. *)
Theorem fetch_request_count (E : env) (db : list json) (p : Z)
    (max_results : option Z) (fuel : nat) (w : world) :
  (forall q, http_get E q = mock_api db None q) ->
  (1 <= p)%Z ->
  (forall m, max_results = Some m -> (0 <= m)%Z) ->
  (List.length db < fuel)%nat ->
  exists ds w' c,
    get_crick_datasets E fuel p max_results w = Some (Ok ds, w')
    /\ requests w' = requests w ++ map (make_params p) (pages 1 c)
    /\ S (sleeps w') = (sleeps w + c)%nat
    /\ Z.of_nat c = request_count (List.length db) p max_results.
Proof.
  intros Hget Hp Hmax Hfuel.
  destruct (fetch_served E db p Hget Hp max_results fuel w Hmax Hfuel)
    as (w' & c & Hrun & (Hreq & Hsl & _) & Hstop).
  eexists. exists w', (S c). split; [exact Hrun|]. split; [exact Hreq|].
  split; [lia|]. exact (stops_at_request_count _ _ _ c Hp Hmax Hstop).
Qed.

Lemma fetch_request_count_witness :
  exists ds w' c,
    get_crick_datasets (mock_env (sample_db 4) None true) 5 2 None empty_world
    = Some (Ok ds, w')
    /\ requests w' = requests empty_world ++ map (make_params 2) (pages 1 c)
    /\ S (sleeps w') = (sleeps empty_world + c)%nat
    /\ Z.of_nat c = request_count (List.length (sample_db 4)) 2 None.
Proof.
  apply (fetch_request_count (mock_env (sample_db 4) None true) (sample_db 4) 2 None 5
           empty_world).
  - reflexivity.
  - lia.
  - intros m Hm. discriminate Hm.
  - vm_compute. lia.
Defined.

(** Four records in pages of two: three requests without a limit, two with
    a limit of four. *)
Example request_count_full_last_page :
  request_count 4 2 None = 3%Z /\ request_count 4 2 (Some 4%Z) = 2%Z.
Proof. split; reflexivity. Qed.

(** ** The progress lines *)

Lemma process_page_full p page all results mt items n w :
  truthy results = true ->
  py_iter results = Some items ->
  py_len results = Some n ->
  (p <= n)%Z ->
  process_page p None page all results (JDict mt) w
  = (Ok (Continue, all ++ items),
     snd (sleep (add_lines w (progress_lines page n (Z.of_nat (List.length (all ++ items)))
                                (dict_get mt (str "count") (JStr (str "unknown"))))))).
Proof.
  intros Ht Hit Hlen Hfull. unfold process_page. rewrite Ht, Hit, Hlen. cbn [negb].
  cbn [py_get bind ret print max_reached].
  destruct (Z.ltb_spec n p); [lia|].
  unfold add_lines, progress_lines. cbn [sleep bind ret snd stdout requests sleeps files].
  now rewrite <- !app_assoc.
Qed.

Section Progress.

Variables (E : env) (db : list json) (p : Z).
Hypothesis Hget : forall q, http_get E q = mock_api db None q.
Hypothesis Hp : (1 <= p)%Z.

Lemma page_body_served (page : Z) :
  page_body E p page
  = Some [(str "meta", JDict (api_meta db (make_params p page)));
          (str "results", JList (page_of db p page))].
Proof. unfold page_body. rewrite Hget. reflexivity. Qed.

Lemma fetch_loop_progress (fuel : nat) :
  forall page all w n,
    all = firstn n db ->
    Z.of_nat n = ((page - 1) * p)%Z ->
    (n <= List.length db)%nat ->
    (List.length db - n < fuel)%nat ->
    exists w' c,
      fetch_loop E fuel p None page all w = Some (Ok db, w')
      /\ stdout w' = stdout w ++ flat_map (progress_of db p) (pages page c)
      /\ (Z.of_nat (List.length db - n) <= Z.of_nat c * p < Z.of_nat (List.length db - n) + p)%Z.
Proof.
  induction fuel as [|fuel IH]; intros page all w n Hall Hn Hnk Hfuel; [lia|].
  cbn [fetch_loop]. rewrite (fetch_page_body E p None page all w _ (page_body_served page)).
  change (results_of _) with (JList (page_of db p page)).
  change (meta_of _) with (JDict (api_meta db (make_params p page))).
  assert (Hlen : List.length (page_of db p page) = Nat.min (Z.to_nat p) (List.length db - n)).
  { rewrite (page_of_consumed db p page n Hn). now rewrite length_firstn, length_skipn. }
  assert (Hall' : all ++ page_of db p page = firstn (Z.to_nat (page * p)) db).
  { rewrite (page_of_consumed db p page n Hn). subst all. rewrite <- firstn_plus.
    f_equal. lia. }
  destruct (page_of db p page) as [|r rs] eqn:Hrs.
  - (* an empty page *)
    rewrite process_page_falsy by reflexivity.
    cbn [List.length] in Hlen. exists (after_request (make_params p page) w), 0%nat.
    split; [|split].
    + subst all. rewrite firstn_all2 by lia. reflexivity.
    + cbn. now rewrite app_nil_r.
    + lia.
  - rewrite <- Hrs in *.
    assert (Hlines : progress_lines page (Z.of_nat (List.length (page_of db p page)))
                       (Z.of_nat (List.length (all ++ page_of db p page)))
                       (dict_get (api_meta db (make_params p page)) (str "count")
                          (JStr (str "unknown")))
                     = progress_of db p page).
    { unfold progress_of. now rewrite Hall'. }
    assert (Htruthy : truthy (JList (page_of db p page)) = true) by now rewrite Hrs.
    destruct (Z.ltb_spec (Z.of_nat (List.length (page_of db p page))) p) as [Hshort|Hfull].
    + (* a short page: the last one *)
      rewrite (process_page_short p None page all (JList (page_of db p page))
                 (api_meta db (make_params p page)) (page_of db p page)
                 (Z.of_nat (List.length (page_of db p page))) _
                 Htruthy eq_refl eq_refl eq_refl Hshort).
      rewrite Hlines. eexists. exists 1%nat. split; [|split].
      * rewrite Hall', firstn_all2 by lia. reflexivity.
      * rewrite pages_S. cbn [pages flat_map add_lines stdout seq map]. now rewrite app_nil_r.
      * rewrite Hrs in Hlen, Hshort. cbn [List.length] in Hlen, Hshort. lia.
    + (* a full page: go on *)
      rewrite (process_page_full p page all (JList (page_of db p page))
                 (api_meta db (make_params p page)) (page_of db p page)
                 (Z.of_nat (List.length (page_of db p page))) _
                 Htruthy eq_refl eq_refl Hfull).
      rewrite Hlines.
      destruct (IH (page + 1)%Z (all ++ page_of db p page)
                  (snd (sleep (add_lines (after_request (make_params p page) w)
                                 (progress_of db p page))))
                  (n + Z.to_nat p)%nat) as (w' & c & Hrun & Hout & Hc).
      * rewrite Hall'. f_equal. lia.
      * lia.
      * lia.
      * lia.
      * exists w', (S c). split; [exact Hrun|]. split.
        -- rewrite Hout, pages_S. cbn [flat_map sleep snd add_lines stdout after_request
                                         log_request].
           now rewrite <- app_assoc.
        -- lia.
Qed.

End Progress.

(** X13: against an API that serves the records [db] in pages, a fetch without a
    limit prints, after its two opening lines, three lines for each page
    that has records and nothing else: the page number with the number of
    records of the page, the running total, which is the number of records
    up to the end of the page, and the total the API advertises. *)
Theorem fetch_prints_progress (E : env) (db : list json) (p : Z) (fuel : nat) (w : world) :
  (forall q, http_get E q = mock_api db None q) ->
  (1 <= p)%Z ->
  (List.length db < fuel)%nat ->
  exists w' c,
    get_crick_datasets E fuel p None w = Some (Ok db, w')
    /\ stdout w' = stdout w ++ announce_lines ++ flat_map (progress_of db p) (pages 1 c)
    /\ (Z.of_nat (List.length db) <= Z.of_nat c * p < Z.of_nat (List.length db) + p)%Z.
Proof.
  intros Hget Hp Hfuel. unfold get_crick_datasets.
  destruct (fetch_loop_progress E db p Hget Hp fuel 1%Z [] (snd (announce w)) 0%nat)
    as (w' & c & Hrun & Hout & Hc); try reflexivity; try lia.
  exists w', c. split; [exact Hrun|]. split.
  - rewrite Hout. cbn [announce print bind snd stdout]. unfold announce_lines.
    now rewrite <- !app_assoc.
  - rewrite Nat.sub_0_r in Hc. exact Hc.
Qed.

Lemma fetch_prints_progress_witness :
  exists w' c,
    get_crick_datasets (mock_env (sample_db 5) None true) 6 2 None empty_world
    = Some (Ok (sample_db 5), w')
    /\ stdout w'
       = stdout empty_world ++ announce_lines
         ++ flat_map (progress_of (sample_db 5) 2) (pages 1 c)
    /\ (Z.of_nat (List.length (sample_db 5)) <= Z.of_nat c * 2
        < Z.of_nat (List.length (sample_db 5)) + 2)%Z.
Proof.
  apply (fetch_prints_progress (mock_env (sample_db 5) None true) (sample_db 5) 2 6
           empty_world).
  - reflexivity.
  - lia.
  - vm_compute. lia.
Defined.

(** ** When persisting succeeds *)


(** ** When the summary succeeds *)







(** ** The entry point *)

(** X17: with nothing fetched, because the first request fails or the first page
    is empty, [main] writes no file and prints no summary: it ends normally
    after one request, on the line "No datasets found or error occurred.". *)
Theorem main_nothing_fetched (E : env) (fuel : nat) (w : world) :
  is_failure (http_get E (make_params 200 1)) = true
  \/ (exists d, page_body E 200 1 = Some d /\ truthy (results_of d) = false) ->
  exists w' ls,
    main E (S fuel) w = Some (Ok tt, w')
    /\ stdout w'
       = stdout w ++ announce_lines ++ ls ++ [[NL; Lit "No datasets found or error occurred."]]
    /\ (List.length ls <= 1)%nat
    /\ requests w' = requests w ++ [make_params 200 1]
    /\ files w' = files w.
Proof.
  intros [Hfail|(d & Hbody & Hfalsy)]; unfold main, get_crick_datasets; cbn [fetch_loop].
  - rewrite (fetch_page_failure E 200 None 1 [] _ Hfail).
    eexists. exists [[Lit "Error fetching data: ";
                      Err (request_error (http_get E (make_params 200 1)))]].
    split; [reflexivity|]. cbn. rewrite <- !app_assoc. repeat split; auto.
  - rewrite (fetch_page_body E 200 None 1 [] _ d Hbody).
    rewrite (process_page_falsy _ _ _ _ _ _ _ Hfalsy).
    eexists. exists []. split; [reflexivity|]. cbn. rewrite <- !app_assoc. repeat split; auto.
Qed.

Lemma main_nothing_fetched_witness :
  exists w' ls,
    main (mock_env (sample_db 3) (Some (1%Z, Response 503 None)) true) 1 empty_world
    = Some (Ok tt, w')
    /\ stdout w'
       = stdout empty_world ++ announce_lines ++ ls
         ++ [[NL; Lit "No datasets found or error occurred."]]
    /\ (List.length ls <= 1)%nat
    /\ requests w' = requests empty_world ++ [make_params 200 1]
    /\ files w' = files empty_world.
Proof.
  apply (main_nothing_fetched (mock_env (sample_db 3) (Some (1%Z, Response 503 None)) true)
           0 empty_world).
  left. reflexivity.
Defined.


Lemma report_world (E : env) (d : list (pystr * json)) (rest : list json) (w : world) :
  can_write E "crick_datasets.json" = true ->
  forallb encodable (JDict d :: rest) = true ->
  forallb previewable (firstn 5 (JDict d :: rest)) = true ->
  exists bytes,
    utf8_encode (json_dumps (JList (JDict d :: rest)) 2 false) = Some bytes
    /\ report E (JDict d :: rest) w
       = (Ok tt,
          {| stdout :=
               stdout w
               ++ [[NL; Lit "Saved "; Num (Z.of_nat (List.length (JDict d :: rest)));
                    Lit " datasets to "; Lit "crick_datasets.json"]]
               ++ expected_summary (JDict d :: rest)
               ++ [[NL; Lit "Dataset fields available:"];
                   [Txt (json_dumps (JList (map (fun kv => JStr (fst kv)) d)) 2 true)]];
             requests := requests w;
             sleeps := sleeps w;
             files := ("crick_datasets.json"%string, Written bytes) :: files w |}).
Proof.
  intros Hcw Henc Hprev.
  destruct (save_datasets_ok E (JDict d :: rest) "crick_datasets.json" w Hcw Henc)
    as (bytes & Hbytes & Hsave).
  exists bytes. split; [exact Hbytes|].
  unfold report. unfold bind at 1. rewrite Hsave.
  unfold bind at 1. rewrite (print_summary_ok _ _ Hprev).
  cbn [py_keys bind ret print add_lines stdout requests sleeps files].
  unfold expected_summary. rewrite <- !app_assoc.
  unfold print. cbn [stdout requests sleeps files]. now rewrite <- !app_assoc.
Qed.





(** ** Records the codec refuses *)

(** X20: when a record fetched holds a string the codec refuses, [main] ends on
    the [UnicodeEncodeError] of [save_datasets] with a non-zero status: the
    file is left incomplete, and neither the note of the save nor the
    summary is printed. *)
Theorem main_stops_on_unencodable_record (E : env) (fuel : nat) (w w1 : world)
    (first : json) (rest : list json) :
  get_crick_datasets E fuel 200 None w = Some (Ok (first :: rest), w1) ->
  can_write E "crick_datasets.json" = true ->
  forallb encodable (first :: rest) = false ->
  exists w',
    main E fuel w = Some (Raise UnicodeEncodeError, w')
    /\ read_file (files w') "crick_datasets.json" = Some Partial
    /\ stdout w' = stdout w1
    /\ option_map (fun r => exit_status (fst r)) (main E fuel w) = Some 1%Z.
Proof.
  intros Hfetch Hcw Henc.
  assert (Hmain : main E fuel w
                  = Some (Raise UnicodeEncodeError,
                          snd (set_file "crick_datasets.json" Partial w1))).
  { unfold main. rewrite Hfetch. unfold report, bind.
    now rewrite (save_datasets_refuses E (first :: rest) "crick_datasets.json" w1 Hcw Henc). }
  rewrite Hmain. eexists. split; [reflexivity|]. cbn [set_file snd files stdout].
  split; [apply read_file_latest|]. split; reflexivity.
Qed.

Lemma main_stops_on_unencodable_record_witness :
  exists w',
    main (mock_env [JDict [(str "title", JStr [55296%N])]] None true) 2 empty_world
    = Some (Raise UnicodeEncodeError, w')
    /\ read_file (files w') "crick_datasets.json" = Some Partial
    /\ stdout w'
       = stdout (snd (fetch_page (mock_env [JDict [(str "title", JStr [55296%N])]] None true)
                        200 None 1 [] (snd (announce empty_world))))
    /\ option_map (fun r => exit_status (fst r))
         (main (mock_env [JDict [(str "title", JStr [55296%N])]] None true) 2 empty_world)
       = Some 1%Z.
Proof.
  apply (main_stops_on_unencodable_record
           (mock_env [JDict [(str "title", JStr [55296%N])]] None true) 2 empty_world
           (snd (fetch_page (mock_env [JDict [(str "title", JStr [55296%N])]] None true)
                   200 None 1 [] (snd (announce empty_world))))
           (JDict [(str "title", JStr [55296%N])]) []).
  - reflexivity.
  - reflexivity.
  - reflexivity.
Defined.

(** ** The listing of the fields *)

Lemma forallb_repeat (A : Type) (f : A -> bool) (x : A) (n : nat) :
  f x = true -> forallb f (repeat x n) = true.
Proof.
  intros Hx. induction n as [|n IH]; [reflexivity|]. cbn [repeat forallb]. now rewrite Hx.
Qed.

Lemma newline_indent_ascii (indent level : nat) :
  forallb is_ascii (newline_indent indent level) = true.
Proof.
  unfold newline_indent.
  change (forallb is_ascii (10%N :: ?r)) with (forallb is_ascii r).
  now apply forallb_repeat.
Qed.

Lemma escape_char_ascii (c : N) : forallb is_ascii (escape_char true c) = true.
Proof.
  unfold escape_char. cbn [andb].
  repeat match goal with
         | |- context [(c =? ?k)%N] => destruct (N.eqb_spec c k); [reflexivity|]
         end.
  destruct (N.ltb_spec c 32); [apply escape_u_ascii|].
  destruct (N.ltb_spec 126 c).
  - destruct (c <? 65536)%N; [apply escape_u_ascii|].
    now rewrite forallb_app, !escape_u_ascii.
  - cbn [forallb]. unfold is_ascii. destruct (N.ltb_spec c 128); [reflexivity|lia].
Qed.

Lemma encode_basestring_ascii (s : pystr) :
  forallb is_ascii (encode_basestring true s) = true.
Proof.
  unfold encode_basestring.
  change (forallb is_ascii (34%N :: ?r)) with (forallb is_ascii r).
  rewrite forallb_app. cbn [forallb]. rewrite andb_true_r.
  induction s as [|c s IH]; [reflexivity|].
  cbn [flat_map]. now rewrite forallb_app, escape_char_ascii, IH.
Qed.

Lemma join_ascii (sep : pystr) (chunks : list pystr) :
  forallb is_ascii sep = true ->
  Forall (fun c => forallb is_ascii c = true) chunks ->
  forallb is_ascii (join sep chunks) = true.
Proof.
  intros Hsep Hall. induction Hall as [|c l Hc Hl IH]; [reflexivity|].
  destruct l as [|c' l]; [exact Hc|].
  rewrite join_cons2, !forallb_app, Hc, Hsep. exact IH.
Qed.

Lemma dumps_ascii (indent : nat) (v : json) :
  forall level, forallb is_ascii (dumps_at true indent level v) = true.
Proof.
  induction v as [|b|n|s|l IH|d IH] using json_ind; intros level.
  - reflexivity.
  - destruct b; reflexivity.
  - apply repr_int_ascii.
  - apply encode_basestring_ascii.
  - destruct l as [|x l]; [reflexivity|].
    rewrite dumps_at_list, !forallb_app, !newline_indent_ascii.
    rewrite join_ascii; [reflexivity| |].
    + now rewrite forallb_app, newline_indent_ascii.
    + rewrite Forall_forall in IH |- *. intros c Hin.
      apply in_map_iff in Hin as (y & <- & Hy). apply IH; auto.
  - destruct d as [|kv d]; [reflexivity|].
    change (dumps_at true indent level (JDict (kv :: d)))
      with (str "{" ++ newline_indent indent (S level)
            ++ join (str "," ++ newline_indent indent (S level))
                 (map (fun kv => let '(k, w) := kv in
                                 encode_basestring true k ++ str ": "
                                 ++ dumps_at true indent (S level) w) (kv :: d))
            ++ newline_indent indent level ++ str "}").
    rewrite !forallb_app, !newline_indent_ascii.
    rewrite join_ascii; [reflexivity| |].
    + now rewrite forallb_app, newline_indent_ascii.
    + rewrite Forall_forall in IH |- *. intros c Hin.
      apply in_map_iff in Hin as ([k w] & <- & Hy).
      rewrite !forallb_app, encode_basestring_ascii.
      specialize (IH _ Hy). cbn [snd] in IH. now rewrite IH.
Qed.

(** X21: the listing of the fields that [main] prints last, the keys of the
    first record dumped with [json.dumps(..., indent=2)], is pure ASCII
    whatever the keys: every character from U+007F on is escaped there,
    while [save_datasets] writes the same keys to the file as they are. *)
Theorem field_listing_is_ascii (E : env) (fuel : nat) (w w1 : world)
    (d : list (pystr * json)) (rest : list json) :
  get_crick_datasets E fuel 200 None w = Some (Ok (JDict d :: rest), w1) ->
  can_write E "crick_datasets.json" = true ->
  forallb encodable (JDict d :: rest) = true ->
  forallb previewable (firstn 5 (JDict d :: rest)) = true ->
  exists w' listing bytes,
    main E fuel w = Some (Ok tt, w')
    /\ last (stdout w') [] = [Txt listing]
    /\ listing = json_dumps (JList (map (fun kv => JStr (fst kv)) d)) 2 true
    /\ forallb is_ascii listing = true
    /\ read_file (files w') "crick_datasets.json" = Some (Written bytes)
    /\ utf8_decode bytes = Some (json_dumps (JList (JDict d :: rest)) 2 false).
Proof.
  intros Hfetch Hcw Henc Hprev.
  destruct (report_world E d rest w1 Hcw Henc Hprev) as (bytes & Hbytes & Hreport).
  eexists. eexists. exists bytes. unfold main. rewrite Hfetch, Hreport.
  split; [reflexivity|]. cbn [stdout files]. split; [|split; [reflexivity|split; [|split]]].
  - rewrite !app_assoc.
    change [[NL; Lit "Dataset fields available:"]; ?l]
      with ([[NL; Lit "Dataset fields available:"]] ++ [l]).
    rewrite app_assoc. apply last_last.
  - apply dumps_ascii.
  - apply read_file_latest.
  - exact (utf8_decode_encode _ _ Hbytes).
Qed.

Lemma field_listing_is_ascii_witness :
  exists w' listing bytes,
    main (mock_env [JDict [([116; 237; 116; 117; 108; 111]%N, JInt 1)]] None true) 2
      empty_world
    = Some (Ok tt, w')
    /\ last (stdout w') [] = [Txt listing]
    /\ listing
       = json_dumps (JList (map (fun kv => JStr (fst kv))
                              [([116; 237; 116; 117; 108; 111]%N, JInt 1)])) 2 true
    /\ forallb is_ascii listing = true
    /\ read_file (files w') "crick_datasets.json" = Some (Written bytes)
    /\ utf8_decode bytes
       = Some (json_dumps (JList [JDict [([116; 237; 116; 117; 108; 111]%N, JInt 1)]]) 2 false).
Proof.
  apply (field_listing_is_ascii
           (mock_env [JDict [([116; 237; 116; 117; 108; 111]%N, JInt 1)]] None true)
           2 empty_world
           (snd (fetch_page
                   (mock_env [JDict [([116; 237; 116; 117; 108; 111]%N, JInt 1)]] None true)
                   200 None 1 [] (snd (announce empty_world))))
           [([116; 237; 116; 117; 108; 111]%N, JInt 1)] []).
  - reflexivity.
  - reflexivity.
  - reflexivity.
  - reflexivity.
Defined.

(** A key with the letter U+00ED, in the listing and in the file. *)
Example field_listing_escapes :
  json_dumps (JList [JStr [116; 237; 116; 117; 108; 111]%N]) 0 true
  = [91; 10; 34; 116; 92; 117; 48; 48; 101; 100; 116; 117; 108; 111; 34; 10; 93]%N
  /\ json_dumps (JList [JStr [116; 237; 116; 117; 108; 111]%N]) 0 false
     = [91; 10; 34; 116; 237; 116; 117; 108; 111; 34; 10; 93]%N.
Proof. split; reflexivity. Qed.
